(** * Food-Connect donor pages: listing dashboard and new-listing form

    A shallow embedding of the logic of
    [src/pages/Donor/DonorDashboard.tsx] and [src/pages/Donor/NewListing.tsx]:
    the transformation of server records into display listings, the refresh
    and delete handlers of the dashboard, the search filter, and the tag and
    submit handlers of the creation form.

    Conventions of the embedding.
    - A JavaScript string is a [string]; its characters are code units in the
      range U+0000..U+00FF (one [ascii] each).
    - A JavaScript number that the code computes with is a [JSNum]: an
      integer or [NaN].  Time values are integers (milliseconds since the
      epoch) and the only non-integer intermediate, the quotient by the
      literal [1000 * 60 * 60], is consumed at once by [Math.ceil], so the
      two are modelled as one integer operation.  For a wall-clock reading
      and any expiration inside the range of [Date] the difference stays
      below 2^53 in magnitude: the subtraction is exact in doubles, and the
      rounding of the quotient, at most 2^-22, cannot reach the next
      integer, which is at least 1/3600000 away, so the ceiling of the
      double is the ceiling of the exact quotient.
    - React state, the clock, the network and the router are explicit: the
      handlers are programs in a state-and-exception monad over the
      component state and a [World]. *)

From Stdlib Require Import String Ascii List ZArith Bool Lia DecimalString.
Import ListNotations.

Local Open Scope list_scope.
Local Open Scope string_scope.
Local Open Scope Z_scope.

(** ** JavaScript strings *)

Module JS.

(** [WhiteSpace] and [LineTerminator] code units below U+0100: TAB, LF, VT,
    FF, CR, SP and NBSP. *)
Definition is_whitespace (c : ascii) : bool :=
  let n := N_of_ascii c in
  ((9 <=? n) && (n <=? 13) || (n =? 32) || (n =? 160))%N.

Fixpoint trimStart (s : string) : string :=
  match s with
  | EmptyString => EmptyString
  | String c r => if is_whitespace c then trimStart r else s
  end.

Fixpoint trimEnd (s : string) : string :=
  match s with
  | EmptyString => EmptyString
  | String c r =>
      match trimEnd r with
      | EmptyString => if is_whitespace c then EmptyString else String c EmptyString
      | r' => String c r'
      end
  end.

(** [String.prototype.trim] *)
Definition trim (s : string) : string := trimEnd (trimStart s).

(** Lower-case mapping of one code unit: A-Z, and the Latin-1 capitals
    U+00C0..U+00DE except the multiplication sign U+00D7. *)
Definition lower_char (c : ascii) : ascii :=
  let n := N_of_ascii c in
  if ((65 <=? n) && (n <=? 90)
      || (192 <=? n) && (n <=? 222) && negb (n =? 215))%N
  then ascii_of_N (n + 32) else c.

(** [String.prototype.toLowerCase] on strings of code units below U+0100,
    where it maps each character on its own; the mappings of Unicode that
    depend on the neighbours or change the length (the final sigma, the
    dotted capital I) concern characters outside this range. *)
Fixpoint toLowerCase (s : string) : string :=
  match s with
  | EmptyString => EmptyString
  | String c r => String (lower_char c) (toLowerCase r)
  end.

(** [s.startsWith(t)] *)
Fixpoint startsWith (s t : string) : bool :=
  match t, s with
  | EmptyString, _ => true
  | String _ _, EmptyString => false
  | String b t', String a s' => Ascii.eqb a b && startsWith s' t'
  end.

(** [s.includes(t)]: [t] occurs in [s] at some position. *)
Fixpoint includes (s t : string) : bool :=
  startsWith s t ||
  match s with
  | EmptyString => false
  | String _ r => includes r t
  end.

(** [s.split(sep)] for a separator of one character.  The result is never
    empty: the empty string splits into one empty segment. *)
Fixpoint split (sep : ascii) (s : string) : list string :=
  match s with
  | EmptyString => [EmptyString]
  | String c r =>
      if Ascii.eqb c sep then EmptyString :: split sep r
      else match split sep r with
           | seg :: segs => String c seg :: segs
           | [] => [String c EmptyString]
           end
  end.

(** [parts.join(sep)] *)
Definition join (sep : string) (parts : list string) : string :=
  String.concat sep parts.

(** Truthiness of a string: every string but the empty one. *)
Definition truthy (s : string) : bool := negb (s =? "")%string.

(** [a || b] on strings that may be absent. *)
Definition or_else (a : option string) (b : string) : string :=
  match a with
  | Some s => if truthy s then s else b
  | None => b
  end.

(** Decimal rendering of an integer inside a template literal. *)
Definition show (z : Z) : string := NilZero.string_of_int (Z.to_int z).

(** ** JavaScript numbers *)

Inductive JSNum : Type :=
| Num (z : Z)
| NaN.

(** [a - b] *)
Definition sub (a b : JSNum) : JSNum :=
  match a, b with
  | Num x, Num y => Num (x - y)
  | _, _ => NaN
  end.

(** [Math.ceil(a / c)] for a positive integer literal [c]. *)
Definition ceil_div (a : JSNum) (c : Z) : JSNum :=
  match a with
  | Num x => Num (- ((- x) / c))
  | NaN => NaN
  end.

(** [Math.max(a, b)]: [NaN] as soon as one argument is. *)
Definition max (a b : JSNum) : JSNum :=
  match a, b with
  | Num x, Num y => Num (Z.max x y)
  | _, _ => NaN
  end.

(** [a <= b]: false as soon as one side is [NaN]. *)
Definition leb (a b : JSNum) : bool :=
  match a, b with
  | Num x, Num y => x <=? y
  | _, _ => false
  end.

(** [x.getTime()] of a [Date]: the time value, [NaN] for an invalid date. *)
Definition getTime (d : option Z) : JSNum :=
  match d with
  | Some t => Num t
  | None => NaN
  end.

(** [s.charAt(i)]: the character at [i] as a string, empty out of range. *)
Definition charAt (s : string) (i : nat) : string :=
  match String.get i s with
  | Some c => String c EmptyString
  | None => EmptyString
  end.

(** [s.slice(-k)]: the last [k] characters, the whole string when it has
    fewer. *)
Definition slice_last (s : string) (k : nat) : string :=
  substring (String.length s - k) k s.

End JS.

(** ** Wire data, the browser and the effect monad *)

(** The fields of [interface Listing] that the server sends. *)
Record ServerListing : Type := mkServerListing {
  id : Z;
  title : string;
  organization : string;
  location : string;
  description : string;
  quantity : Z;
  dietaryRestrictions : string;
  availabilityStatus : string;
  expirationDate : string;
  imageUrl : list string;
  userId : Z
}.

(** [result.data]: an array of records, or anything else.  The records of an
    array are taken to conform to [interface Listing]; an array with an
    element on which the callback of [map] throws (a [null], a
    [dietaryRestrictions] that is not a string) has no counterpart here. *)
Inductive Payload : Type :=
| IsArray (records : list ServerListing)
| NotArray.

(** The JSON body of a response: [{ success, data, message }], a missing
    [success] read as false and a missing [message] as [None]. *)
Record Envelope : Type := mkEnvelope {
  success : bool;
  data : Payload;
  message : option string
}.

(** A thrown value: an [Error] with its message, or something else. *)
Inductive Exn : Type :=
| JsError (msg : string)
| JsOther.

(** What [fetch] comes back with: a rejected promise, or a response with its
    status and the outcome of [response.json()]. *)
Inductive Reply : Type :=
| Rejected (e : Exn)
| Response (status : Z) (body : Exn + Envelope).

Record File : Type := mkFile { file_name : string; file_bytes : string }.

Inductive FormValue : Type :=
| Text (s : string)
| Blob (f : File).

Inductive Method : Type := GET | POST | DELETE.

Record Request : Type := mkRequest {
  method : Method;
  url : string;
  credentials_include : bool;
  form : list (string * FormValue)
}.

(** What the page cannot see inside: the wall clock ([clock n] is what the
    [n]-th evaluation of [new Date()] reads), date parsing and printing, the
    server, and the user in front of a [window.confirm] box. *)
Record Browser : Type := mkBrowser {
  clock : nat -> Z;
  Date_parse : string -> option Z;
  Date_toISOString : Z -> string;
  RangeError_message : string;
  network : Request -> Reply;
  confirm : string -> bool
}.

(** What the page has done to the outside so far. *)
Record World : Type := mkWorld {
  ticks : nat;
  sent : list Request;
  visited : list string
}.

Inductive Completion (A : Type) : Type :=
| Normal (a : A)
| Throw (e : Exn).
Arguments Normal {A} a.
Arguments Throw {A} e.

(** A handler over component state [S]: it ends normally or by a throw, and
    in both cases the state and the world are as it left them. *)
Definition Task (S A : Type) : Type := S -> World -> Completion A * S * World.

Section TaskOps.
Context {S : Type}.

Definition ret {A} (a : A) : Task S A := fun s w => (Normal a, s, w).

Definition bind {A B} (m : Task S A) (k : A -> Task S B) : Task S B :=
  fun s w =>
    match m s w with
    | (Normal a, s', w') => k a s' w'
    | (Throw e, s', w') => (Throw e, s', w')
    end.

Definition throw {A} (e : Exn) : Task S A := fun s w => (Throw e, s, w).

(** [try { body } catch (err) { handler }] *)
Definition try_catch {A} (body : Task S A) (handler : Exn -> Task S A) : Task S A :=
  fun s w =>
    match body s w with
    | (Normal a, s', w') => (Normal a, s', w')
    | (Throw e, s', w') => handler e s' w'
    end.

(** [try { body } finally { cleanup }] *)
Definition finally {A} (body : Task S A) (cleanup : Task S unit) : Task S A :=
  fun s w =>
    match body s w with
    | (c, s', w') =>
        match cleanup s' w' with
        | (Normal _, s'', w'') => (c, s'', w'')
        | (Throw e, s'', w'') => (Throw e, s'', w'')
        end
    end.

Definition get : Task S S := fun s w => (Normal s, s, w).

(** A React state setter, in its functional form [set(prev => f prev)]. *)
Definition modify (f : S -> S) : Task S unit := fun s w => (Normal tt, f s, w).

(** [new Date()] *)
Definition new_Date (B : Browser) : Task S Z :=
  fun s w =>
    (Normal (clock B (ticks w)), s,
     mkWorld (Datatypes.S (ticks w)) (sent w) (visited w)).

(** [await fetch(url, init)] *)
Definition fetch (B : Browser) (req : Request) : Task S (Z * (Exn + Envelope)) :=
  fun s w =>
    let w' := mkWorld (ticks w) (sent w ++ [req])%list (visited w) in
    match network B req with
    | Rejected e => (Throw e, s, w')
    | Response status body => (Normal (status, body), s, w')
    end.

(** [await response.json()] *)
Definition json (response : Z * (Exn + Envelope)) : Task S Envelope :=
  match snd response with
  | inl e => throw e
  | inr env => ret env
  end.

(** [navigate(path)] *)
Definition navigate (path : string) : Task S unit :=
  fun s w => (Normal tt, s, mkWorld (ticks w) (sent w) (visited w ++ [path])%list).

(** [xs.map(f)] with a callback that has effects, left to right. *)
Fixpoint mapM {A B} (f : A -> Task S B) (xs : list A) : Task S (list B) :=
  match xs with
  | [] => ret []
  | x :: rest =>
      bind (f x) (fun y => bind (mapM f rest) (fun ys => ret (y :: ys)))
  end.

(** The state a handler leaves behind. *)
Definition state_after {A} (m : Task S A) (s : S) (w : World) : S :=
  snd (fst (m s w)).

Definition world_after {A} (m : Task S A) (s : S) (w : World) : World :=
  snd (m s w).

Definition completion_of {A} (m : Task S A) (s : S) (w : World) : Completion A :=
  fst (fst (m s w)).
End TaskOps.

Declare Scope task_scope.
Delimit Scope task_scope with task.
Notation "x <- m ;; k" := (bind m (fun x => k))
  (at level 61, m at next level, right associativity) : task_scope.
Notation "m ;; k" := (bind m (fun _ => k))
  (at level 61, right associativity) : task_scope.

(** [response.ok]: a status in 200..299. *)
Definition ok (response : Z * (Exn + Envelope)) : bool :=
  (200 <=? fst response) && (fst response <=? 299).

(** [err.message] read off any thrown value. *)
Definition message_of (e : Exn) : option string :=
  match e with
  | JsError m => Some m
  | JsOther => None
  end.

(** ** DonorDashboard.tsx *)

Module Dashboard.

(** [interface Listing]: the server's fields and the optional display
    fields.  [tags] keeps its optional type because the search filter tests
    it; [image] is [null] for a listing without pictures. *)
Record Listing : Type := mkListing {
  wire : ServerListing;
  tags : option (list string);
  status : string;
  duration : JS.JSNum;
  reservations : Z;
  image : option string
}.

Record State : Type := mkState {
  listings : list Listing;
  searchQuery : string;
  isLoading : bool;
  error : option string
}.

Definition setListings (f : list Listing -> list Listing) : Task State unit :=
  modify (fun s => mkState (f (listings s)) (searchQuery s) (isLoading s) (error s)).

Definition setIsLoading (b : bool) : Task State unit :=
  modify (fun s => mkState (listings s) (searchQuery s) b (error s)).

Definition setError (e : option string) : Task State unit :=
  modify (fun s => mkState (listings s) (searchQuery s) (isLoading s) e).

Definition api : string := "http://localhost:5000/api/food-posts".

(** Lines 56-58: the tags of a record. *)
Definition parseTags (restrictions : string) : list string :=
  if JS.truthy restrictions
  then map JS.trim (JS.split "," restrictions)
  else [].

(** Line 63: the hours left, from the two dates. *)
Definition durationHours (expiration now : option Z) : JS.JSNum :=
  JS.max (JS.Num 0)
         (JS.ceil_div (JS.sub (JS.getTime expiration) (JS.getTime now))
                      (1000 * 60 * 60)).

(** Lines 65-72: the object the callback returns, given what [new Date()]
    read. *)
Definition decode (B : Browser) (listing : ServerListing) (now : Z) : Listing :=
  {| wire := listing;
     tags := Some (parseTags (dietaryRestrictions listing));
     status := availabilityStatus listing;
     duration := durationHours (Date_parse B (expirationDate listing)) (Some now);
     reservations := 0;
     image := match imageUrl listing with
              | first :: _ => Some first
              | [] => None
              end |}.

Section Handlers.
Variable B : Browser.
Local Open Scope task_scope.

(** Lines 54-73: the callback of [result.data.map]. *)
Definition formatListing (listing : ServerListing) : Task State Listing :=
  now <- new_Date B ;;
  ret (decode B listing now).

(** Lines 36-85. *)
Definition fetchListings : Task State unit :=
  setIsLoading true ;;
  setError None ;;
  finally
    (try_catch
       (response <- fetch B (mkRequest GET api true []) ;;
        (if negb (ok response)
         then throw (JsError ("Error " ++ JS.show (fst response)
                              ++ ": Failed to fetch listings"))
         else ret tt) ;;
        result <- json response ;;
        match success result, data result with
        | true, IsArray records =>
            formattedListings <- mapM formatListing records ;;
            setListings (fun _ => formattedListings)
        | _, _ => throw (JsError "Invalid response format")
        end)
       (fun err =>
          setError (Some (match err with
                          | JsError m => m
                          | JsOther => "Error fetching listings. Please try again later."
                          end))))
    (setIsLoading false).

(** Lines 88-116. *)
Definition handleDelete (target : Z) : Task State unit :=
  if negb (confirm B "Are you sure you want to delete this listing?")
  then ret tt
  else
    try_catch
      (response <- fetch B (mkRequest DELETE (api ++ "/" ++ JS.show target) true []) ;;
       (if negb (ok response)
        then errorData <- json response ;;
             throw (JsError (JS.or_else (message errorData)
                               ("Error " ++ JS.show (fst response)
                                ++ ": Failed to delete listing")))
        else ret tt) ;;
       result <- json response ;;
       if success result
       then setListings (filter (fun listing => negb (id (wire listing) =? target)))
       else throw (JsError (JS.or_else (message result) "Failed to delete listing")))
      (fun err =>
         setError (Some ("Failed to delete listing: "
                         ++ match message_of err with
                            | Some m => m
                            | None => "undefined"
                            end))).
End Handlers.

(** Lines 119-123: the predicate of the search filter. *)
Definition matchesQuery (searchQuery : string) (listing : Listing) : bool :=
  JS.includes (JS.toLowerCase (title (wire listing))) (JS.toLowerCase searchQuery)
  || JS.includes (JS.toLowerCase (organization (wire listing))) (JS.toLowerCase searchQuery)
  || match tags listing with
     | Some ts =>
         existsb (fun tag => JS.includes (JS.toLowerCase tag) (JS.toLowerCase searchQuery)) ts
     | None => false
     end.

Definition filteredListings (s : State) : list Listing :=
  filter (matchesQuery (searchQuery s)) (listings s).

End Dashboard.

(** ** NewListing.tsx *)

Module NewListing.

(** A form value: the initial [quantity] is a number, what an input hands to
    [handleChange] is text. *)
Inductive FieldValue : Type :=
| NumberValue (z : Z)
| TextValue (s : string).

(** [String(v)] *)
Definition String_ (v : FieldValue) : string :=
  match v with
  | NumberValue z => JS.show z
  | TextValue s => s
  end.

(** The [listing] state of the form (lines 6-16). *)
Record Draft : Type := mkDraft {
  title : string;
  organization : string;
  location : string;
  quantity : FieldValue;
  dietaryRestrictions : string;
  description : string;
  availabilityStatus : string;
  expirationDate : string;
  image : option File
}.

Record State : Type := mkState {
  listing : Draft;
  tagInput : string;
  previewImage : option string;
  isSubmitting : bool;
  error : string
}.

Definition initial : State :=
  {| listing := mkDraft "" "" "" (NumberValue 1) "" "" "Available" "" None;
     tagInput := "";
     previewImage := None;
     isSubmitting := false;
     error := "" |}.

Definition setListing (f : Draft -> Draft) : Task State unit :=
  modify (fun s => mkState (f (listing s)) (tagInput s) (previewImage s)
                           (isSubmitting s) (error s)).

Definition setTagInput (v : string) : Task State unit :=
  modify (fun s => mkState (listing s) v (previewImage s) (isSubmitting s) (error s)).

Definition setIsSubmitting (b : bool) : Task State unit :=
  modify (fun s => mkState (listing s) (tagInput s) (previewImage s) b (error s)).

Definition setError (e : string) : Task State unit :=
  modify (fun s => mkState (listing s) (tagInput s) (previewImage s) (isSubmitting s) e).

(** [{ ...prev, dietaryRestrictions: v }] *)
Definition withRestrictions (v : string) (prev : Draft) : Draft :=
  mkDraft (title prev) (organization prev) (location prev) (quantity prev) v
          (description prev) (availabilityStatus prev) (expirationDate prev)
          (image prev).

Definition api : string := "http://localhost:5000/api/food-posts".

Section Handlers.
Variable B : Browser.
Local Open Scope task_scope.

(** Lines 63-75. *)
Definition addTag : Task State unit :=
  s <- get ;;
  let restrictions := dietaryRestrictions (listing s) in
  let tag := JS.trim (tagInput s) in
  if JS.truthy tag && negb (JS.includes restrictions tag)
  then
    let newRestrictions :=
      if JS.truthy restrictions then restrictions ++ ", " ++ tag else tag in
    setListing (withRestrictions newRestrictions) ;;
    setTagInput ""
  else ret tt.

(** Lines 77-85. *)
Definition removeTag (tagToRemove : string) : Task State unit :=
  s <- get ;;
  let tags := map JS.trim (JS.split "," (dietaryRestrictions (listing s))) in
  let updatedTags :=
    JS.join ", " (filter (fun tag => negb (tag =? tagToRemove)%string) tags) in
  setListing (withRestrictions updatedTags).

(** Lines 109-122: the multipart body; [toISOString] of an invalid date
    throws a [RangeError].  The body is local to the handler, so a throw
    after the first six fields leaves nothing behind and the date is read
    first here. *)
Definition formData (d : Draft) (file : File) : Task State (list (string * FormValue)) :=
  iso <- match Date_parse B (expirationDate d) with
         | Some t => ret (Date_toISOString B t)
         | None => throw (JsError (RangeError_message B))
         end ;;
  ret [ ("title", Text (title d));
        ("quantity", Text (String_ (quantity d)));
        ("description", Text (description d));
        ("dietaryRestrictions", Text (dietaryRestrictions d));
        ("location", Text (location d));
        ("availabilityStatus", Text (availabilityStatus d));
        ("expirationDate", Text iso);
        ("images", Blob file) ].

(** Lines 95-148. *)
Definition handleSubmit : Task State unit :=
  setError "" ;;
  setIsSubmitting true ;;
  finally
    (try_catch
       (s <- get ;;
        match image (listing s) with
        | None =>
            setError "Please upload an image for your listing" ;;
            setIsSubmitting false
        | Some file =>
            body <- formData (listing s) file ;;
            response <- fetch B (mkRequest POST api true body) ;;
            (if negb (ok response)
             then errorData <- json response ;;
                  throw (JsError (JS.or_else (message errorData)
                                    ("Error " ++ JS.show (fst response)
                                     ++ ": Failed to create listing")))
             else ret tt) ;;
            _ <- json response ;;
            navigate "/donor/dashboard"
        end)
       (fun err =>
          setError (JS.or_else (message_of err)
                      "Failed to create listing. Please try again.")))
    (setIsSubmitting false).
End Handlers.

(** Lines 151-153: the tags shown under the input. *)
Definition dietaryTags (s : State) : list string :=
  if JS.truthy (dietaryRestrictions (listing s))
  then filter JS.truthy (map JS.trim (JS.split "," (dietaryRestrictions (listing s))))
  else [].

End NewListing.

(** ** DonorDashboard.tsx: what the page shows *)

Module DashboardView.
Import Dashboard.

(** The dashboard as the component first renders it (lines 25-28). *)
Definition initial : State := mkState [] "" true None.

(** Lines 175-177: the letters in the badge, from the [name] of the cached
    profile when it has one. *)
Definition initials (name : option string) : string :=
  match name with
  | Some n => if JS.truthy n then JS.charAt n 0 ++ JS.slice_last n 1 else "U"
  | None => "U"
  end.

Inductive Avatar : Type :=
| Picture (src : string)
| Badge (letters : string).

(** Lines 167-179: the stored picture when there is one, the badge if not. *)
Definition avatar (profileImage : option string) (name : option string) : Avatar :=
  match profileImage with
  | Some src => if JS.truthy src then Picture src else Badge (initials name)
  | None => Badge (initials name)
  end.

(** Lines 214-227: the banner renders when [error] is truthy. *)
Definition banner (s : State) : option string :=
  match error s with
  | Some e => if JS.truthy e then Some e else None
  | None => None
  end.

(** The three things the main area can be (lines 230-339); the markup of a
    card is left out, the listings on the cards are kept. *)
Inductive Body : Type :=
| Spinner
| Cards (shown : list Listing)
| NoListings.

Definition body (s : State) : Body :=
  if isLoading s then Spinner
  else if (0 <? length (filteredListings s))%nat then Cards (filteredListings s)
  else NoListings.

(** Line 145: the search box. *)
Definition setSearchQuery (q : string) : Task State unit :=
  modify (fun s => mkState (listings s) q (isLoading s) (error s)).

(** A number as it is printed inside the markup. *)
Definition number_text (n : JS.JSNum) : string :=
  match n with
  | JS.Num z => JS.show z
  | JS.NaN => "NaN"
  end.

(** Line 283: the line of a card that tells how long the listing lasts. *)
Definition durationLine (l : Listing) : string :=
  "Available for " ++ number_text (duration l) ++ " hours".

End DashboardView.

(** ** DonorDashboard.tsx: the delete handler, step by step

    [Dashboard.handleDelete] gives the state and the world a run ends in.
    The same lines are embedded here once more over a state that also keeps
    a record of what can be seen from outside while the handler runs: the
    prompt and its answer, the request going out, the reply coming in, and
    each call of a state setter with the state it leaves.  The order of
    these events is what tells a removal made after the reply from one made
    before it and undone. *)

Module DashboardTrace.
Import Dashboard.

Inductive Event : Type :=
| Prompted (prompt : string) (answer : bool)
| Requested (req : Request)
| Replied (r : Reply)
| Updated (s : State).

(** The component state and the events so far, oldest first. *)
Definition Watched : Type := (State * list Event)%type.

(** A state setter: the new state, and the event of setting it. *)
Definition update (f : State -> State) : Task Watched unit :=
  modify (fun sw => (f (fst sw), (snd sw ++ [Updated (f (fst sw))])%list)).

Definition setListings (f : list Listing -> list Listing) : Task Watched unit :=
  update (fun s => mkState (f (listings s)) (searchQuery s) (isLoading s) (error s)).

Definition setError (e : option string) : Task Watched unit :=
  update (fun s => mkState (listings s) (searchQuery s) (isLoading s) e).

(** [window.confirm(prompt)] *)
Definition window_confirm (B : Browser) (prompt : string) : Task Watched bool :=
  fun sw w =>
    (Normal (confirm B prompt),
     (fst sw, (snd sw ++ [Prompted prompt (confirm B prompt)])%list), w).

Local Abbreviation plain_fetch := (@fetch Watched).

(** [await fetch(url, init)]: the request leaves, the reply arrives, and the
    handler goes on. *)
Definition fetch (B : Browser) (req : Request) : Task Watched (Z * (Exn + Envelope)) :=
  fun sw w =>
    plain_fetch B req
      (fst sw, (snd sw ++ [Requested req; Replied (network B req)])%list) w.

Section Handlers.
Variable B : Browser.
Local Open Scope task_scope.

(** Lines 88-116. *)
Definition handleDelete (target : Z) : Task Watched unit :=
  answer <- window_confirm B "Are you sure you want to delete this listing?" ;;
  if negb answer
  then ret tt
  else
    try_catch
      (response <- fetch B (mkRequest DELETE (api ++ "/" ++ JS.show target) true []) ;;
       (if negb (ok response)
        then errorData <- json response ;;
             throw (JsError (JS.or_else (message errorData)
                               ("Error " ++ JS.show (fst response)
                                ++ ": Failed to delete listing")))
        else ret tt) ;;
       result <- json response ;;
       if success result
       then setListings (filter (fun listing => negb (id (wire listing) =? target)))
       else throw (JsError (JS.or_else (message result) "Failed to delete listing")))
      (fun err =>
         setError (Some ("Failed to delete listing: "
                         ++ match message_of err with
                            | Some m => m
                            | None => "undefined"
                            end))).
End Handlers.

End DashboardTrace.

(** ** NewListing.tsx: the inputs of the form *)

Module NewListingInputs.
Import NewListing.

(** The inputs whose [onChange] is [handleChange] (lines 206-296), by their
    [name] attribute. *)
Inductive Input : Type :=
| title_input
| organization_input
| location_input
| quantity_input
| expirationDate_input
| description_input.

(** [{ ...prev, [name]: value }] for the name of one of these inputs. *)
Definition withField (name : Input) (value : string) (prev : Draft) : Draft :=
  match name with
  | title_input =>
      mkDraft value (organization prev) (location prev) (quantity prev)
              (dietaryRestrictions prev) (description prev)
              (availabilityStatus prev) (expirationDate prev) (image prev)
  | organization_input =>
      mkDraft (title prev) value (location prev) (quantity prev)
              (dietaryRestrictions prev) (description prev)
              (availabilityStatus prev) (expirationDate prev) (image prev)
  | location_input =>
      mkDraft (title prev) (organization prev) value (quantity prev)
              (dietaryRestrictions prev) (description prev)
              (availabilityStatus prev) (expirationDate prev) (image prev)
  | quantity_input =>
      mkDraft (title prev) (organization prev) (location prev) (TextValue value)
              (dietaryRestrictions prev) (description prev)
              (availabilityStatus prev) (expirationDate prev) (image prev)
  | expirationDate_input =>
      mkDraft (title prev) (organization prev) (location prev) (quantity prev)
              (dietaryRestrictions prev) (description prev)
              (availabilityStatus prev) value (image prev)
  | description_input =>
      mkDraft (title prev) (organization prev) (location prev) (quantity prev)
              (dietaryRestrictions prev) value
              (availabilityStatus prev) (expirationDate prev) (image prev)
  end.

(** Lines 44-50. *)
Definition handleChange (name : Input) (value : string) : Task State unit :=
  setListing (withField name value).

(** [{ ...prev, image: file }] *)
Definition withImage (file : File) (prev : Draft) : Draft :=
  mkDraft (title prev) (organization prev) (location prev) (quantity prev)
          (dietaryRestrictions prev) (description prev)
          (availabilityStatus prev) (expirationDate prev) (Some file).

Definition setPreviewImage (v : option string) : Task State unit :=
  modify (fun s => mkState (listing s) (tagInput s) v (isSubmitting s) (error s)).

Local Open Scope task_scope.

(** Lines 52-61.  [files] is [e.target.files], absent or a list;
    [createObjectURL] is [URL.createObjectURL]. *)
Definition handleImageChange (createObjectURL : File -> string)
    (files : option (list File)) : Task State unit :=
  match files with
  | Some (file :: _) =>
      setListing (withImage file) ;;
      setPreviewImage (Some (createObjectURL file))
  | _ => ret tt
  end.

(** Lines 87-92; [preventDefault] has no effect on the state. *)
Definition handleKeyDown (key : string) : Task State unit :=
  if (key =? "Enter")%string then addTag else ret tt.

End NewListingInputs.

(** ** A reference browser

    The theorems below hold for every [Browser].  To run the handlers on
    concrete inputs one is fixed here: it reads and prints the one date
    format ECMAScript prescribes in full, [YYYY-MM-DDTHH:mm:ss.sssZ], the
    output of [toISOString].  Engines accept further formats; a string this
    parser rejects is used below as an unparsable date only when no engine
    reads it as a date either. *)

Module Reference.

Definition digit (c : ascii) : option Z :=
  let n := Z.of_N (N_of_ascii c) in
  if (48 <=? n) && (n <=? 57) then Some (n - 48) else None.

Fixpoint number (cs : list ascii) (acc : Z) : option Z :=
  match cs with
  | [] => Some acc
  | c :: rest =>
      match digit c with
      | Some d => number rest (10 * acc + d)
      | None => None
      end
  end.

Definition leap (y : Z) : bool :=
  (y mod 4 =? 0) && (negb (y mod 100 =? 0) || (y mod 400 =? 0)).

Definition days_in_month (y m : Z) : Z :=
  if m =? 2 then (if leap y then 29 else 28)
  else if (m =? 4) || (m =? 6) || (m =? 9) || (m =? 11) then 30
  else 31.

(** Days from 1970-01-01 to the civil date [y]-[m]-[d]. *)
Definition days_from_civil (y m d : Z) : Z :=
  let y' := if m <=? 2 then y - 1 else y in
  let era := y' / 400 in
  let yoe := y' - era * 400 in
  let doy := (153 * (if 2 <? m then m - 3 else m + 9) + 2) / 5 + d - 1 in
  let doe := yoe * 365 + yoe / 4 - yoe / 100 + doy in
  era * 146097 + doe - 719468.

(** The civil date of a day number. *)
Definition civil_from_days (z : Z) : Z * Z * Z :=
  let z' := z + 719468 in
  let era := z' / 146097 in
  let doe := z' - era * 146097 in
  let yoe := (doe - doe / 1460 + doe / 36524 - doe / 146096) / 365 in
  let doy := doe - (365 * yoe + yoe / 4 - yoe / 100) in
  let mp := (5 * doy + 2) / 153 in
  let d := doy - (153 * mp + 2) / 5 + 1 in
  let m := if mp <? 10 then mp + 3 else mp - 9 in
  let y := yoe + era * 400 in
  ((if m <=? 2 then y + 1 else y), m, d).

Definition parse (s : string) : option Z :=
  match list_ascii_of_string s with
  | [y1; y2; y3; y4; p1; m1; m2; p2; d1; d2; p3; h1; h2; p4; n1; n2; p5;
     s1; s2; p6; f1; f2; f3; p7] =>
      if (string_of_list_ascii [p1; p2; p3; p4; p5; p6; p7] =? "--T::.Z")%string
      then
        match number [y1; y2; y3; y4] 0, number [m1; m2] 0, number [d1; d2] 0,
              number [h1; h2] 0, number [n1; n2] 0, number [s1; s2] 0,
              number [f1; f2; f3] 0 with
        | Some y, Some m, Some d, Some h, Some n, Some sec, Some ms =>
            if (1 <=? m) && (m <=? 12) && (1 <=? d) && (d <=? days_in_month y m)
               && (h <=? 23) && (n <=? 59) && (sec <=? 59)
            then Some ((((days_from_civil y m d * 24 + h) * 60 + n) * 60 + sec)
                       * 1000 + ms)
            else None
        | _, _, _, _, _, _, _ => None
        end
      else None
  | _ => None
  end.

(** The last [width] decimal digits of [z], zeros included. *)
Fixpoint pad (width : nat) (z : Z) : string :=
  match width with
  | O => ""
  | S w => pad w (z / 10) ++ JS.show (z mod 10)
  end.

(** [toISOString] for the years 0000 to 9999. *)
Definition toISOString (t : Z) : string :=
  let day := t / 86400000 in
  let ms := t mod 86400000 in
  let '(y, m, d) := civil_from_days day in
  pad 4 y ++ "-" ++ pad 2 m ++ "-" ++ pad 2 d ++ "T"
  ++ pad 2 (ms / 3600000) ++ ":" ++ pad 2 (ms / 60000 mod 60) ++ ":"
  ++ pad 2 (ms / 1000 mod 60) ++ "." ++ pad 3 (ms mod 1000) ++ "Z".

(** A browser with the given clock, server and user. *)
Definition browser (clock : nat -> Z) (network : Request -> Reply)
    (confirm : string -> bool) : Browser :=
  mkBrowser clock parse toISOString "Invalid time value" network confirm.

End Reference.

(** ** Vocabulary of the statements *)

Module Spec.
Import JS.

(** [no_char sep s]: the separator does not occur in [s]. *)
Fixpoint no_char (sep : ascii) (s : string) : Prop :=
  match s with
  | EmptyString => True
  | String c r => c <> sep /\ no_char sep r
  end.

Fixpoint all_whitespace (s : string) : Prop :=
  match s with
  | EmptyString => True
  | String c r => is_whitespace c = true /\ all_whitespace r
  end.

(** [s] neither starts nor ends with white space. *)
Definition trimmed (s : string) : Prop :=
  forall c r, (s = String c r \/ s = r ++ String c "") -> is_whitespace c = false.

(** The capital letters below U+0100: A to Z, and the accented capitals
    U+00C0 to U+00DE without the multiplication sign. *)
Definition is_capital (c : ascii) : bool :=
  let n := N_of_ascii c in
  ((65 <=? n) && (n <=? 90) || (192 <=? n) && (n <=? 222) && negb (n =? 215))%N.

(** [small] is the small letter of the capital letter [capital]: it stands
    32 places after it. *)
Definition small_of (capital small : ascii) : bool :=
  is_capital capital && (N_of_ascii small =? N_of_ascii capital + 32)%N.

(** The same letter, in the same case or not. *)
Definition same_letter (a b : ascii) : bool :=
  Ascii.eqb a b || small_of a b || small_of b a.

(** The same letters one by one. *)
Fixpoint same_letters (s t : string) : bool :=
  match s, t with
  | EmptyString, EmptyString => true
  | String a s', String b t' => same_letter a b && same_letters s' t'
  | _, _ => false
  end.

(** [q] occurs in [s] up to the case of letters: a piece of [s] has the
    letters of [q]. *)
Definition occurs_ignoring_case (q s : string) : Prop :=
  exists pre mid post,
    s = pre ++ mid ++ post /\ same_letters mid q = true.

(** [k] is the ceiling of [num / den]. *)
Definition is_ceiling (num den k : Z) : Prop :=
  den * (k - 1) < num <= den * k.

(** Milliseconds in an hour. *)
Definition hour : Z := 3600000.

(** The records decoded one after the other, the first at clock reading
    number [tick], each next one at the next reading. *)
Fixpoint decode_in_turn (B : Browser) (tick : nat) (records : list ServerListing)
  : list Dashboard.Listing :=
  match records with
  | [] => []
  | r :: rest => Dashboard.decode B r (clock B tick) :: decode_in_turn B (S tick) rest
  end.

(** The requests of the dashboard. *)
Definition list_request : Request := mkRequest GET Dashboard.api true [].

Definition delete_request (target : Z) : Request :=
  mkRequest DELETE (Dashboard.api ++ "/" ++ show target) true [].

Definition delete_prompt : string := "Are you sure you want to delete this listing?".

(** The three ways the list operation fails at the level of the protocol. *)
Inductive list_failure : Reply -> Prop :=
| list_http_error status body :
    ok (status, body) = false -> list_failure (Response status body)
| list_success_false status env :
    ok (status, inr env) = true -> success env = false ->
    list_failure (Response status (inr env))
| list_not_a_sequence status env :
    ok (status, inr env) = true -> data env = NotArray ->
    list_failure (Response status (inr env)).

(** The records of a reply that is a success in full. *)
Definition list_result (r : Reply) : option (list ServerListing) :=
  match r with
  | Response status (inr env) =>
      if ok (status, inr env) && success env
      then match data env with
           | IsArray records => Some records
           | NotArray => None
           end
      else None
  | _ => None
  end.

(** The two ways the server rejects a delete. *)
Inductive delete_failure : Reply -> Prop :=
| delete_http_error status body :
    ok (status, body) = false -> delete_failure (Response status body)
| delete_success_false status env :
    ok (status, inr env) = true -> success env = false ->
    delete_failure (Response status (inr env)).

(** The server confirmed the delete. *)
Definition delete_confirmed (r : Reply) : bool :=
  match r with
  | Response status (inr env) => ok (status, inr env) && success env
  | _ => false
  end.

(** The query occurs, up to case, in the title, in the organization or in
    one of the tags. *)
Definition Matches (q : string) (l : Dashboard.Listing) : Prop :=
  occurs_ignoring_case q (title (Dashboard.wire l))
  \/ occurs_ignoring_case q (organization (Dashboard.wire l))
  \/ exists ts tag,
       Dashboard.tags l = Some ts /\ In tag ts /\ occurs_ignoring_case q tag.

(** The state after a refresh that failed with [msg]. *)
Definition failed (s : Dashboard.State) (msg : string) : Dashboard.State :=
  Dashboard.mkState (Dashboard.listings s) (Dashboard.searchQuery s) false (Some msg).

(** The message [fetchListings] shows for a thrown value. *)
Definition fetch_message (e : Exn) : string :=
  match e with
  | JsError m => m
  | JsOther => "Error fetching listings. Please try again later."
  end.

(** The world once one more request has gone out. *)
Definition with_request (w : World) (req : Request) : World :=
  mkWorld (ticks w) (sent w ++ [req])%list (visited w).

(** The state after a delete that failed with [msg]. *)
Definition delete_failed (s : Dashboard.State) (msg : string) : Dashboard.State :=
  Dashboard.mkState (Dashboard.listings s) (Dashboard.searchQuery s)
                    (Dashboard.isLoading s)
                    (Some ("Failed to delete listing: " ++ msg)).

(** [err.message] inside a template literal. *)
Definition thrown_message (e : Exn) : string :=
  match message_of e with
  | Some m => m
  | None => "undefined"
  end.

(** The collection without the listings of identifier [target]. *)
Definition without (target : Z) (ls : list Dashboard.Listing) : list Dashboard.Listing :=
  filter (fun listing => negb (id (Dashboard.wire listing) =? target)) ls.

(** The form after the user has typed [input] in the tag box
    ([setTagInput(e.target.value)]). *)
Definition typed (input : string) (s : NewListing.State) : NewListing.State :=
  NewListing.mkState (NewListing.listing s) input (NewListing.previewImage s)
                     (NewListing.isSubmitting s) (NewListing.error s).

(** The form once [addTag] has accepted [tag]. *)
Definition tagged (tag : string) (s : NewListing.State) : NewListing.State :=
  let restrictions := NewListing.dietaryRestrictions (NewListing.listing s) in
  NewListing.mkState
    (NewListing.withRestrictions
       (if truthy restrictions then restrictions ++ ", " ++ tag else tag)
       (NewListing.listing s))
    "" (NewListing.previewImage s) (NewListing.isSubmitting s) (NewListing.error s).

(** The request [handleSubmit] sends for a draft with a file and a date. *)
Definition create_request (B : Browser) (d : NewListing.Draft) (file : File) (t : Z)
  : Request :=
  mkRequest POST NewListing.api true
    [ ("title", Text (NewListing.title d));
      ("quantity", Text (NewListing.String_ (NewListing.quantity d)));
      ("description", Text (NewListing.description d));
      ("dietaryRestrictions", Text (NewListing.dietaryRestrictions d));
      ("location", Text (NewListing.location d));
      ("availabilityStatus", Text (NewListing.availabilityStatus d));
      ("expirationDate", Text (Date_toISOString B t));
      ("images", Blob file) ].

(** The tags a dietary-restriction string shows in the form. *)
Definition shown_tags (restrictions : string) : list string :=
  filter truthy (map trim (split "," restrictions)).

(** [tag !== other] *)
Definition differs (other : string) (tag : string) : bool :=
  negb (tag =? other)%string.

(** The form after [removeTag] has run on it. *)
Definition untagged (tag : string) (s : NewListing.State) : NewListing.State :=
  NewListing.mkState
    (NewListing.withRestrictions
       (join ", " (filter (differs tag)
                     (map trim (split "," (NewListing.dietaryRestrictions
                                            (NewListing.listing s))))))
       (NewListing.listing s))
    (NewListing.tagInput s) (NewListing.previewImage s)
    (NewListing.isSubmitting s) (NewListing.error s).

(** The message [handleSubmit] falls back on. *)
Definition submit_default : string := "Failed to create listing. Please try again.".

(** The form when [handleSubmit] has finished with [msg] in the error
    slot. *)
Definition settled (s : NewListing.State) (msg : string) : NewListing.State :=
  NewListing.mkState (NewListing.listing s) (NewListing.tagInput s)
                     (NewListing.previewImage s) false msg.

(** The message of the [Error] thrown for a reply that is not ok. *)
Definition create_error (status : Z) (env : Envelope) : string :=
  or_else (message env) ("Error " ++ show status ++ ": Failed to create listing").

(** The key under which the value typed in an input is sent as it is;
    the organization is not sent and the expiration date is sent
    converted. *)
Definition sent_under (i : NewListingInputs.Input) : option string :=
  match i with
  | NewListingInputs.title_input => Some "title"
  | NewListingInputs.quantity_input => Some "quantity"
  | NewListingInputs.description_input => Some "description"
  | NewListingInputs.location_input => Some "location"
  | NewListingInputs.organization_input => None
  | NewListingInputs.expirationDate_input => None
  end.

(** The form after [handleChange] has run for an input. *)
Definition changed (i : NewListingInputs.Input) (v : string) (s : NewListing.State)
  : NewListing.State :=
  NewListing.mkState (NewListingInputs.withField i v (NewListing.listing s))
                     (NewListing.tagInput s) (NewListing.previewImage s)
                     (NewListing.isSubmitting s) (NewListing.error s).

(** The form after [handleImageChange] has taken a file. *)
Definition attached (url : File -> string) (file : File) (s : NewListing.State)
  : NewListing.State :=
  NewListing.mkState (NewListingInputs.withImage file (NewListing.listing s))
                     (NewListing.tagInput s) (Some (url file))
                     (NewListing.isSubmitting s) (NewListing.error s).

(** The dashboard with another text in the search box. *)
Definition searching (q : string) (s : Dashboard.State) : Dashboard.State :=
  Dashboard.mkState (Dashboard.listings s) q (Dashboard.isLoading s) (Dashboard.error s).

(** The dashboard with the loading flag off. *)
Definition loaded (s : Dashboard.State) : Dashboard.State :=
  Dashboard.mkState (Dashboard.listings s) (Dashboard.searchQuery s) false
                    (Dashboard.error s).

(** What [decode] derives from the record alone. *)
Definition derived (l : Dashboard.Listing) : Prop :=
  Dashboard.reservations l = 0
  /\ Dashboard.status l = availabilityStatus (Dashboard.wire l)
  /\ Dashboard.image l = hd_error (imageUrl (Dashboard.wire l))
  /\ Dashboard.tags l
     = Some (Dashboard.parseTags (dietaryRestrictions (Dashboard.wire l))).

End Spec.

(** ** Concrete inputs *)

Module Samples.

(** A record as the server sends it. *)
Definition bread (restrictions expiration : string) : ServerListing :=
  mkServerListing 7 "Fresh bread" "Corner Bakery" "12 Main St" "Day-old loaves" 10
                  restrictions "Available" expiration ["/uploads/bread.jpg"] 3.

Definition soup : ServerListing :=
  mkServerListing 8 "Lentil soup" "Corner Bakery" "12 Main St" "Two pots" 2
                  "Vegan" "Available" "2025-01-01T00:00:00.000Z" [] 3.

(** Midnight UTC on 1 January 2025. *)
Definition new_year : Z := 1735689600000.

(** A clock that shows one millisecond more at each reading, from one
    millisecond before 22:00 UTC on 31 December 2024. *)
Definition ticking (n : nat) : Z := new_year - 2 * 3600000 - 1 + Z.of_nat n.

(** A clock that stands still at 22:00 UTC on 31 December 2024. *)
Definition frozen (n : nat) : Z := new_year - 2 * 3600000.

Definition offline (req : Request) : Reply := Rejected (JsError "Failed to fetch").

(** A server that answers every request with the same reply. *)
Definition always (r : Reply) (req : Request) : Reply := r.

Definition yes (prompt : string) : bool := true.

Definition two_records : Reply :=
  Response 200 (inr (mkEnvelope true
                       (IsArray [bread "Vegan, Gluten-Free" "2025-01-01T00:00:00.000Z"; soup])
                       None)).

Definition not_found : Reply :=
  Response 404 (inr (mkEnvelope false NotArray (Some "Food post not found"))).

Definition deleted : Reply :=
  Response 200 (inr (mkEnvelope true NotArray (Some "Food post deleted"))).

Definition fresh : World := mkWorld 0 [] [].

(** A dashboard that already shows one listing. *)
Definition showing_soup : Dashboard.State :=
  Dashboard.mkState [Dashboard.decode (Reference.browser frozen offline yes) soup (frozen 0)]
                    "" false None.

(** A draft as the user has filled it in, with or without a picture. *)
Definition draft (restrictions : string) (picture : option File) : NewListing.Draft :=
  NewListing.mkDraft "Fresh bread" "Corner Bakery" "12 Main St"
                     (NewListing.TextValue "10") restrictions "Day-old loaves"
                     "Available" "2025-01-01T00:00:00.000Z" picture.

Definition editing (restrictions input : string) (picture : option File)
  : NewListing.State :=
  NewListing.mkState (draft restrictions picture) input None false "".

Definition photo : File := mkFile "bread.jpg" "JFIF".

Definition created : Reply := Response 201 (inr (mkEnvelope true NotArray None)).

End Samples.

(** * Properties *)

(** ** Strings *)

Module JSFacts.
Import JS Spec.

Lemma append_nil_r (s : string) : s ++ "" = s.
Proof. induction s as [|c r IH]; simpl; [reflexivity | now rewrite IH]. Qed.

Lemma append_assoc (a b c : string) : (a ++ b) ++ c = a ++ b ++ c.
Proof. induction a as [|x a IH]; simpl; [reflexivity | now rewrite IH]. Qed.

Lemma startsWith_spec (t s : string) :
  startsWith s t = true <-> exists post, s = t ++ post.
Proof.
  revert s; induction t as [|b t IH]; intros s; simpl.
  - destruct s; split; intros; try reflexivity; eexists; reflexivity.
  - destruct s as [|a s]; simpl.
    + split; [discriminate | intros [post H]; discriminate].
    + rewrite andb_true_iff, IH. split.
      * intros [Hab [post ->]]. apply Ascii.eqb_eq in Hab. subst. now exists post.
      * intros [post H]. injection H as -> ->. split; [apply Ascii.eqb_refl | now exists post].
Qed.

(** [includes] is the substring test. *)
Lemma includes_spec (s t : string) :
  includes s t = true <-> exists pre post, s = pre ++ t ++ post.
Proof.
  induction s as [|c r IH].
  - cbn [includes]. rewrite orb_false_r, startsWith_spec. split.
    + intros [post H]. now exists "", post.
    + intros [pre [post H]]. destruct pre; [now exists post | discriminate].
  - cbn [includes]. rewrite orb_true_iff, startsWith_spec, IH. split.
    + intros [[post H] | [pre [post H]]].
      * now exists "", post.
      * exists (String c pre), post. simpl. now rewrite H.
    + intros [pre [post H]]. destruct pre as [|x pre]; simpl in H.
      * left. now exists post.
      * right. injection H as _ ->. now exists pre, post.
Qed.


Lemma includes_refl (s : string) : includes s s = true.
Proof. apply includes_spec. exists "", "". simpl. now rewrite append_nil_r. Qed.

Lemma includes_suffix (a s : string) : includes (a ++ s) s = true.
Proof. apply includes_spec. exists a, "". now rewrite append_nil_r. Qed.

Lemma truthy_spec (s : string) : truthy s = true <-> s <> "".
Proof.
  unfold truthy. rewrite negb_true_iff. apply String.eqb_neq.
Qed.

Lemma truthy_false (s : string) : truthy s = false <-> s = "".
Proof.
  unfold truthy. rewrite negb_false_iff. apply String.eqb_eq.
Qed.

(** *** split *)

Lemma split_not_nil (sep : ascii) (s : string) : split sep s <> [].
Proof.
  induction s as [|c r IH]; simpl; [discriminate|].
  destruct (Ascii.eqb c sep); [discriminate|].
  destruct (split sep r); discriminate.
Qed.

(** Gluing the segments back with the separator gives the string. *)
Lemma join_split (sep : ascii) (s : string) :
  join (String sep "") (split sep s) = s.
Proof.
  unfold join. induction s as [|c r IH]; simpl; [reflexivity|].
  destruct (Ascii.eqb_spec c sep) as [->|Hne].
  - pose proof (split_not_nil sep r) as Hnil.
    destruct (split sep r) as [|seg segs]; [contradiction|].
    simpl in *. now rewrite IH.
  - pose proof (split_not_nil sep r) as Hnil.
    destruct (split sep r) as [|seg segs]; [contradiction|].
    destruct segs as [|seg' segs]; simpl in *; now rewrite <- IH.
Qed.

Lemma split_no_sep (sep : ascii) (s : string) :
  Forall (no_char sep) (split sep s).
Proof.
  induction s as [|c r IH]; simpl.
  - repeat constructor.
  - destruct (Ascii.eqb_spec c sep) as [->|Hne].
    + constructor; [exact I | exact IH].
    + destruct (split sep r) as [|seg segs].
      * repeat constructor; assumption.
      * inversion IH; subst. constructor; [split|]; assumption.
Qed.

(** *** trim *)

Lemma trimStart_decomp (s : string) :
  exists pre, all_whitespace pre /\ s = pre ++ trimStart s.
Proof.
  induction s as [|c r [pre [Hws Heq]]]; simpl.
  - now exists "".
  - destruct (is_whitespace c) eqn:Hc.
    + exists (String c pre). simpl. split; [now split | now rewrite <- Heq].
    + now exists "".
Qed.

Lemma trimEnd_decomp (s : string) :
  exists post, all_whitespace post /\ s = trimEnd s ++ post.
Proof.
  induction s as [|c r [post [Hws Heq]]]; simpl.
  - now exists "".
  - destruct (trimEnd r) as [|x r'] eqn:Hr.
    + destruct (is_whitespace c) eqn:Hc.
      * exists (String c post). simpl in *. subst r. now repeat split.
      * exists post. simpl in *. now subst r.
    + exists post. simpl in *. split; [assumption | now subst r].
Qed.

Lemma trimStart_head (s : string) (c : ascii) (r : string) :
  trimStart s = String c r -> is_whitespace c = false.
Proof.
  induction s as [|x s IH]; simpl; [discriminate|].
  destruct (is_whitespace x) eqn:Hx; [exact IH|].
  intros H. injection H as -> _. exact Hx.
Qed.

Lemma trimEnd_last (s : string) (c : ascii) (r : string) :
  trimEnd s = r ++ String c "" -> is_whitespace c = false.
Proof.
  revert r; induction s as [|x s IH]; intros r; simpl.
  - destruct r; discriminate.
  - destruct (trimEnd s) as [|y s'] eqn:Hs.
    + destruct (is_whitespace x) eqn:Hx.
      * destruct r; discriminate.
      * destruct r as [|z r]; simpl; intros H.
        -- injection H as ->. exact Hx.
        -- injection H as _ H. destruct r; discriminate.
    + destruct r as [|z r]; simpl; intros H.
      * discriminate.
      * injection H as _ H. now apply (IH r).
Qed.

Lemma trimEnd_head (s : string) (c : ascii) (r : string) :
  trimEnd s = String c r -> exists r', s = String c r'.
Proof.
  destruct s as [|x s]; simpl; [discriminate|].
  destruct (trimEnd s).
  - destruct (is_whitespace x); [discriminate|].
    intros H. injection H as -> _. now eexists.
  - intros H. injection H as -> _. now eexists.
Qed.

(** [trim] removes white space at both ends, and nothing else. *)
Lemma trim_spec (s : string) :
  trimmed (trim s) /\
  exists pre post, all_whitespace pre /\ all_whitespace post /\ s = pre ++ trim s ++ post.
Proof.
  unfold trim. split.
  - intros c r [H|H].
    + destruct (trimEnd_head _ _ _ H) as [r' Hr']. now apply (trimStart_head s c r').
    + now apply (trimEnd_last _ _ _ H).
  - destruct (trimStart_decomp s) as [pre [Hpre Hs]].
    destruct (trimEnd_decomp (trimStart s)) as [post [Hpost Ht]].
    exists pre, post. repeat split; try assumption.
    now rewrite <- Ht.
Qed.

Lemma trim_empty : trim "" = "".
Proof. reflexivity. Qed.

(** *** toLowerCase *)

Lemma toLowerCase_app (a b : string) :
  toLowerCase (a ++ b) = toLowerCase a ++ toLowerCase b.
Proof. induction a as [|c a IH]; simpl; [reflexivity | now rewrite IH]. Qed.

Lemma toLowerCase_split (s a b : string) :
  toLowerCase s = a ++ b ->
  exists s1 s2, s = s1 ++ s2 /\ toLowerCase s1 = a /\ toLowerCase s2 = b.
Proof.
  revert s; induction a as [|x a IH]; intros s H; simpl in H.
  - now exists "", s.
  - destruct s as [|c s]; simpl in H; [discriminate|].
    injection H as Hx H. destruct (IH s H) as [s1 [s2 [-> [H1 H2]]]].
    exists (String c s1), s2. simpl. now rewrite Hx, H1.
Qed.

(** The code of [lower_char c]. *)
Lemma lower_char_code (c : ascii) :
  N_of_ascii (lower_char c)
  = if is_capital c then (N_of_ascii c + 32)%N else N_of_ascii c.
Proof.
  unfold lower_char, is_capital.
  destruct ((65 <=? N_of_ascii c) && (N_of_ascii c <=? 90)
            || (192 <=? N_of_ascii c) && (N_of_ascii c <=? 222)
               && negb (N_of_ascii c =? 215))%N eqn:H; [|reflexivity].
  apply N_ascii_embedding.
  pose proof (N_ascii_bounded c).
  apply orb_true_iff in H. destruct H as [H|H].
  - apply andb_true_iff in H. destruct H as [_ H]. apply N.leb_le in H. lia.
  - apply andb_true_iff in H. destruct H as [H _].
    apply andb_true_iff in H. destruct H as [_ H]. apply N.leb_le in H. lia.
Qed.

Lemma ascii_code_inj (a b : ascii) : N_of_ascii a = N_of_ascii b -> a = b.
Proof.
  intros H. rewrite <- (ascii_N_embedding a), <- (ascii_N_embedding b). now rewrite H.
Qed.

Lemma is_capital_code (c : ascii) :
  is_capital c = true ->
  (65 <= N_of_ascii c <= 90 \/ 192 <= N_of_ascii c <= 222)%N.
Proof.
  unfold is_capital. intros H. apply orb_true_iff in H. destruct H as [H|H].
  - apply andb_true_iff in H. destruct H as [H1 H2].
    apply N.leb_le in H1, H2. lia.
  - apply andb_true_iff in H. destruct H as [H _].
    apply andb_true_iff in H. destruct H as [H1 H2].
    apply N.leb_le in H1, H2. lia.
Qed.

Lemma not_capital_code (c : ascii) :
  (97 <= N_of_ascii c <= 122 \/ 224 <= N_of_ascii c <= 254)%N -> is_capital c = false.
Proof.
  unfold is_capital. intros H.
  destruct (65 <=? N_of_ascii c)%N eqn:H1, (N_of_ascii c <=? 90)%N eqn:H2,
           (192 <=? N_of_ascii c)%N eqn:H3, (N_of_ascii c <=? 222)%N eqn:H4;
    try reflexivity;
    repeat match goal with
           | X : (_ <=? _)%N = true |- _ => apply N.leb_le in X
           | X : (_ <=? _)%N = false |- _ => apply N.leb_gt in X
           end; lia.
Qed.

(** [toLowerCase] makes two characters equal exactly when they are the
    same letter. *)
Lemma lower_char_same_letter (a b : ascii) :
  lower_char a = lower_char b <-> same_letter a b = true.
Proof.
  unfold same_letter, small_of. rewrite !orb_true_iff, !andb_true_iff, !N.eqb_eq.
  split.
  - intros H. apply (f_equal N_of_ascii) in H. rewrite !lower_char_code in H.
    destruct (is_capital a) eqn:Ha, (is_capital b) eqn:Hb.
    + left; left. apply Ascii.eqb_eq, ascii_code_inj. lia.
    + left; right. split; [reflexivity | now symmetry].
    + right. split; [reflexivity | assumption].
    + left; left. now apply Ascii.eqb_eq, ascii_code_inj.
  - intros [[H|[Ha H]]|[Hb H]].
    + apply Ascii.eqb_eq in H. now subst.
    + apply ascii_code_inj. rewrite !lower_char_code, Ha.
      rewrite not_capital_code; [now symmetry|].
      apply is_capital_code in Ha. lia.
    + apply ascii_code_inj. rewrite !lower_char_code, Hb.
      rewrite not_capital_code; [assumption|].
      apply is_capital_code in Hb. lia.
Qed.

Lemma toLowerCase_same_letters (s t : string) :
  toLowerCase s = toLowerCase t <-> same_letters s t = true.
Proof.
  revert t; induction s as [|a s IH]; intros [|b t]; simpl;
    try (split; [discriminate | discriminate]); [tauto|].
  rewrite andb_true_iff, <- IH, <- lower_char_same_letter. split.
  - intros H. now injection H.
  - intros [-> ->]. reflexivity.
Qed.

Lemma includes_lower_spec (s q : string) :
  includes (toLowerCase s) (toLowerCase q) = true <-> occurs_ignoring_case q s.
Proof.
  rewrite includes_spec. split.
  - intros [pre [post H]].
    destruct (toLowerCase_split _ _ _ H) as [s1 [s2 [-> [_ H2]]]].
    destruct (toLowerCase_split _ _ _ H2) as [m [p [-> [Hm _]]]].
    exists s1, m, p. split; [reflexivity|]. now apply toLowerCase_same_letters.
  - intros [pre [mid [post [-> Hm]]]].
    apply toLowerCase_same_letters in Hm.
    exists (toLowerCase pre), (toLowerCase post).
    now rewrite !toLowerCase_app, Hm.
Qed.

(** *** More on split, trim and includes *)

Lemma split_app (sep : ascii) (a b : string) :
  split sep (a ++ String sep b) = (split sep a ++ split sep b)%list.
Proof.
  induction a as [|c r IH]; simpl.
  - now rewrite Ascii.eqb_refl.
  - destruct (Ascii.eqb c sep); [now rewrite IH|].
    rewrite IH. pose proof (split_not_nil sep r) as Hnil.
    destruct (split sep r) as [|h t]; [contradiction | reflexivity].
Qed.

Lemma split_without_sep (sep : ascii) (s : string) :
  no_char sep s -> split sep s = [s].
Proof.
  induction s as [|c r IH]; simpl; [reflexivity|].
  intros [Hc Hr]. apply Ascii.eqb_neq in Hc. rewrite Hc, (IH Hr). reflexivity.
Qed.

Lemma no_char_app (sep : ascii) (a b : string) :
  no_char sep (a ++ b) <-> no_char sep a /\ no_char sep b.
Proof.
  induction a as [|c r IH]; simpl; [tauto|]. rewrite IH. tauto.
Qed.

Lemma no_char_trim (sep : ascii) (s : string) :
  no_char sep s -> no_char sep (trim s).
Proof.
  intros H. destruct (trim_spec s) as [_ [pre [post [_ [_ Hs]]]]].
  rewrite Hs in H. apply no_char_app in H. destruct H as [_ H].
  apply no_char_app in H. tauto.
Qed.

Lemma trimEnd_fixed (s : string) :
  (forall c r, s = r ++ String c "" -> is_whitespace c = false) -> trimEnd s = s.
Proof.
  induction s as [|a r IH]; intros H; simpl; [reflexivity|].
  rewrite IH.
  - destruct r as [|y r']; [|reflexivity].
    now rewrite (H a "" eq_refl).
  - intros c r' ->. apply (H c (String a r')). reflexivity.
Qed.

(** A string with no white space at either end is its own [trim]. *)
Lemma trim_fixed (s : string) : trimmed s -> trim s = s.
Proof.
  intros H. unfold trim.
  assert (Hs : trimStart s = s).
  { destruct s as [|c r]; [reflexivity|]. simpl.
    now rewrite (H c r (or_introl eq_refl)). }
  rewrite Hs. apply trimEnd_fixed. intros c r Hr. apply (H c r). now right.
Qed.

Lemma trim_idempotent (s : string) : trim (trim s) = trim s.
Proof. apply trim_fixed. apply trim_spec. Qed.

Lemma trim_after_space (s : string) : trim (String " " s) = trim s.
Proof. reflexivity. Qed.

Lemma map_trim_split_space (s : string) :
  map trim (split "," (String " " s)) = map trim (split "," s).
Proof.
  simpl. pose proof (split_not_nil "," s) as Hnil.
  destruct (split "," s) as [|h t]; [contradiction | reflexivity].
Qed.

(** Splitting what [join] glued with ", " gives the parts back, up to
    [trim]. *)
Lemma map_trim_split_join (parts : list string) :
  parts <> [] ->
  Forall (no_char ",") parts ->
  map trim (split "," (join ", " parts)) = map trim parts.
Proof.
  unfold join. induction parts as [|x rest IH]; intros Hne Hall; [contradiction|].
  inversion Hall as [|? ? Hx Hrest]; subst.
  destruct rest as [|y rest'].
  - simpl. now rewrite (split_without_sep _ _ Hx).
  - change (String.concat ", " (x :: y :: rest'))
      with (x ++ String "," (String " " (String.concat ", " (y :: rest')))).
    rewrite split_app, (split_without_sep _ _ Hx), map_app.
    rewrite map_trim_split_space, IH by (assumption || discriminate).
    reflexivity.
Qed.

Lemma includes_trans (a b c : string) :
  includes a b = true -> includes b c = true -> includes a c = true.
Proof.
  rewrite !includes_spec. intros [p1 [q1 ->]] [p2 [q2 ->]].
  exists (p1 ++ p2), (q2 ++ q1). now rewrite !append_assoc.
Qed.

Lemma includes_trim (s : string) : includes s (trim s) = true.
Proof.
  apply includes_spec. destruct (trim_spec s) as [_ [pre [post [_ [_ Hs]]]]].
  now exists pre, post.
Qed.

Lemma join_includes (sep : string) (parts : list string) (part : string) :
  In part parts -> includes (join sep parts) part = true.
Proof.
  unfold join. intros Hin. apply includes_spec.
  induction parts as [|x rest IH]; [contradiction|].
  destruct Hin as [->|Hin].
  - destruct rest as [|y rest'].
    + exists "", "". simpl. now rewrite append_nil_r.
    + exists "", (sep ++ String.concat sep (y :: rest')). reflexivity.
  - destruct (IH Hin) as [pre [post Heq]].
    destruct rest as [|y rest']; [contradiction|].
    exists (x ++ sep ++ pre), post.
    change (String.concat sep (x :: y :: rest'))
      with (x ++ sep ++ String.concat sep (y :: rest')).
    now rewrite Heq, !append_assoc.
Qed.

(** A segment of a string occurs in it. *)
Lemma includes_segment (sep : ascii) (s seg : string) :
  In seg (split sep s) -> includes s seg = true.
Proof.
  intros Hin. rewrite <- (join_split sep s) at 1. now apply join_includes.
Qed.

End JSFacts.

(** ** The dashboard *)

Module DashboardFacts.
Import JS Spec JSFacts Dashboard.

(** Unfolds one layer of the monad. *)
Ltac step :=
  unfold state_after, world_after, completion_of, finally, try_catch, bind,
    ret, throw, modify, get, json, setListings, setIsLoading, setError; simpl.

(** Closes the four parts of [refresh_all_or_nothing] when the refresh
    failed with a message that computes to a literal. *)
Ltac failure_case :=
  split; [reflexivity|];
  split; [intros _; split; [reflexivity | eexists; split; [reflexivity | discriminate]]|];
  split; [intros _; split; [reflexivity | eexists; reflexivity]|];
  let H := fresh in intros ? H; discriminate H.

Lemma hour_literal : 1000 * 60 * 60 = hour.
Proof. reflexivity. Qed.

Lemma ceiling_of_division (d : Z) : is_ceiling d hour (- ((- d) / hour)).
Proof.
  unfold is_ceiling, hour.
  pose proof (Z.mul_div_le (- d) 3600000 ltac:(lia)).
  pose proof (Z.mul_succ_div_gt (- d) 3600000 ltac:(lia)).
  lia.
Qed.

Lemma ceiling_unique (d k k' : Z) :
  is_ceiling d hour k -> is_ceiling d hour k' -> k = k'.
Proof. unfold is_ceiling, hour. lia. Qed.

Lemma durationHours_valid (t now : Z) :
  durationHours (Some t) (Some now) = Num (Z.max 0 (- ((- (t - now)) / hour))).
Proof. unfold durationHours. rewrite hour_literal. reflexivity. Qed.

Lemma durationHours_invalid (now : option Z) : durationHours None now = NaN.
Proof. reflexivity. Qed.

(** The callback of [map] cannot throw; it reads the clock once per record. *)
Lemma mapM_formatListing (B : Browser) (records : list ServerListing)
    (s : State) (w : World) :
  mapM (formatListing B) records s w
  = (Normal (decode_in_turn B (ticks w) records), s,
     mkWorld (ticks w + length records)%nat (sent w) (visited w)).
Proof.
  revert w; induction records as [|r rest IH]; intros w; simpl.
  - unfold ret. destruct w as [n rq vs]; simpl. now rewrite Nat.add_0_r.
  - unfold bind at 1. unfold formatListing at 1. unfold bind at 1.
    unfold new_Date, ret at 1. unfold bind at 1. rewrite IH. simpl.
    unfold ret. now rewrite Nat.add_succ_r.
Qed.

Lemma decode_in_turn_constant (B : Browser) (records : list ServerListing)
    (n : nat) (c : Z) :
  (forall i, (i < length records)%nat -> clock B (n + i) = c) ->
  decode_in_turn B n records = map (fun r => decode B r c) records.
Proof.
  revert n; induction records as [|r rest IH]; intros n Hc; simpl; [reflexivity|].
  f_equal.
  - rewrite <- (Hc 0%nat) by (simpl; lia). now rewrite Nat.add_0_r.
  - apply IH. intros i Hi.
    replace (S n + i)%nat with (n + S i)%nat by lia.
    apply Hc. simpl. lia.
Qed.

Example reference_dates :
  Reference.parse "2025-01-01T00:00:00.000Z" = Some Samples.new_year
  /\ Reference.toISOString Samples.new_year = "2025-01-01T00:00:00.000Z"
  /\ Reference.parse "2024-02-29T23:59:59.999Z" = Some 1709251199999
  /\ Reference.parse "2023-02-29T23:59:59.999Z" = None
  /\ Reference.parse "not a date" = None.
Proof. repeat split; vm_compute; reflexivity. Qed.

(** *** What the handlers compute *)

(** [fetchListings], reply by reply. *)
Lemma fetchListings_run (B : Browser) (s : State) (w : World) :
  fetchListings B s w =
  let w1 := with_request w list_request in
  match network B list_request with
  | Rejected e => (Normal tt, failed s (fetch_message e), w1)
  | Response status body =>
      if negb (ok (status, body))
      then (Normal tt,
            failed s ("Error " ++ show status ++ ": Failed to fetch listings"), w1)
      else
        match body with
        | inl e => (Normal tt, failed s (fetch_message e), w1)
        | inr env =>
            match success env, data env with
            | true, IsArray records =>
                (Normal tt,
                 mkState (decode_in_turn B (ticks w) records) (searchQuery s) false None,
                 mkWorld (ticks w + length records)%nat (sent w1) (visited w))
            | _, _ => (Normal tt, failed s "Invalid response format", w1)
            end
        end
  end.
Proof.
  unfold fetchListings, list_request, with_request, failed.
  unfold bind at 1. unfold setIsLoading at 1, modify at 1.
  unfold bind at 1. unfold setError at 1, modify at 1.
  unfold finally, try_catch. unfold bind at 1. unfold fetch.
  destruct (network B _) as [e|status body]; [reflexivity|].
  unfold bind at 1. unfold ok at 1 2. simpl fst.
  destruct (negb _); [reflexivity|].
  destruct body as [e|env]; [reflexivity|].
  unfold ret at 1. unfold bind at 1. unfold json, ret at 1. simpl.
  destruct (success env); [|reflexivity].
  destruct (data env) as [records|]; [|reflexivity].
  unfold bind at 1. rewrite mapM_formatListing. reflexivity.
Qed.

(** [handleDelete], answer by answer and reply by reply. *)
Lemma handleDelete_run (B : Browser) (target : Z) (s : State) (w : World) :
  handleDelete B target s w =
  if negb (confirm B delete_prompt) then (Normal tt, s, w)
  else
    let w1 := with_request w (delete_request target) in
    match network B (delete_request target) with
    | Rejected e => (Normal tt, delete_failed s (thrown_message e), w1)
    | Response status (inl e) => (Normal tt, delete_failed s (thrown_message e), w1)
    | Response status (inr env) =>
        if negb (ok (status, @inr Exn Envelope env))
        then (Normal tt,
              delete_failed s (or_else (message env)
                                 ("Error " ++ show status ++ ": Failed to delete listing")),
              w1)
        else if success env
        then (Normal tt,
              mkState (without target (listings s)) (searchQuery s) (isLoading s) (error s),
              w1)
        else (Normal tt,
              delete_failed s (or_else (message env) "Failed to delete listing"), w1)
    end.
Proof.
  unfold handleDelete, delete_prompt, delete_request, with_request, delete_failed,
    without.
  destruct (negb (confirm B _)); [reflexivity|].
  unfold try_catch. unfold bind at 1. unfold fetch.
  destruct (network B _) as [e|status body]; [reflexivity|].
  unfold bind at 1. unfold ok. simpl fst.
  destruct body as [e|env].
  - destruct (negb _); reflexivity.
  - destruct (negb _); [reflexivity|].
    unfold bind, json, ret; simpl.
    destruct (success env); reflexivity.
Qed.

(** *** Duration *)

(** X24.  When the expiration string parses as a date, the duration is a
    non-negative integer: the ceiling of the hours from the evaluation time
    to the expiration, floored at zero, hence 0 when the expiration is not
    in the future. *)
Theorem duration_ceiling_hours (B : Browser) (l : ServerListing) (now t : Z) :
  Date_parse B (expirationDate l) = Some t ->
  exists k h,
    is_ceiling (t - now) hour k
    /\ duration (decode B l now) = Num h /\ h = Z.max 0 k /\ 0 <= h
    /\ (t <= now -> h = 0).
Proof.
  intros Ht. exists (- ((- (t - now)) / hour)), (Z.max 0 (- ((- (t - now)) / hour))).
  pose proof (ceiling_of_division (t - now)) as Hc.
  split; [exact Hc|]. split.
  - simpl. rewrite Ht. apply durationHours_valid.
  - split; [reflexivity|]. split; [lia|].
    intros Hpast. unfold is_ceiling, hour in *. lia.
Qed.

Lemma duration_ceiling_hours_witness :
  let B := Reference.browser Samples.frozen Samples.offline Samples.yes in
  let later := Samples.new_year + 5400000 in
  Date_parse B (expirationDate Samples.soup) = Some Samples.new_year
  /\ Samples.new_year <= later
  /\ duration (decode B Samples.soup later) = Num 0
  /\ duration (decode B Samples.soup (Samples.new_year - 5400000)) = Num 2.
Proof.
  intros B later.
  assert (Hp : Date_parse B (expirationDate Samples.soup) = Some Samples.new_year)
    by reflexivity.
  assert (Hle : Samples.new_year <= later) by (vm_compute; discriminate).
  split; [exact Hp|]. split; [exact Hle|]. split.
  - destruct (duration_ceiling_hours B Samples.soup later Samples.new_year Hp)
      as [k [h [_ [Hd [_ [_ Hz]]]]]].
    rewrite Hd, (Hz Hle). reflexivity.
  - destruct (duration_ceiling_hours B Samples.soup (Samples.new_year - 5400000)
                Samples.new_year Hp)
      as [k [h [Hc [Hd [Hh _]]]]].
    rewrite Hd. f_equal. subst h.
    rewrite (ceiling_unique _ k 2 Hc); [reflexivity|].
    unfold is_ceiling, hour, Samples.new_year. lia.
Defined.

(** C1.  The code at the failing input: a record whose expiration is not a
    date gets the duration [NaN], not 0, and its card reads "Available for
    NaN hours". *)
Lemma duration_unparsable_not_zero :
  let B := Reference.browser Samples.frozen Samples.offline Samples.yes in
  let l := Samples.bread "Vegan" "not a date" in
  Date_parse B (expirationDate l) = None
  /\ duration (decode B l (Samples.frozen 0)) = NaN
  /\ duration (decode B l (Samples.frozen 0)) <> Num 0
  /\ DashboardView.durationLine (decode B l (Samples.frozen 0))
     = "Available for NaN hours".
Proof.
  intros B l. repeat split; try reflexivity. vm_compute. discriminate.
Qed.

(** C8.  Decoding the same record at a later instant gives the same tags,
    status and first image, and a duration that is smaller than or equal
    to the earlier one: the same value, or a smaller number.  When the
    expiration string parses as a date both durations are numbers, the
    later one not above the earlier. *)
Theorem decode_monotone (B : Browser) (l : ServerListing) (t1 t2 : Z) :
  t1 <= t2 ->
  tags (decode B l t2) = tags (decode B l t1)
  /\ status (decode B l t2) = status (decode B l t1)
  /\ image (decode B l t2) = image (decode B l t1)
  /\ (duration (decode B l t2) = duration (decode B l t1)
      \/ exists h1 h2,
           duration (decode B l t1) = Num h1
           /\ duration (decode B l t2) = Num h2 /\ h2 < h1)
  /\ (forall t, Date_parse B (expirationDate l) = Some t ->
        exists h1 h2,
          duration (decode B l t1) = Num h1
          /\ duration (decode B l t2) = Num h2 /\ 0 <= h2 <= h1).
Proof.
  intros Hle.
  assert (Hnum : forall t, Date_parse B (expirationDate l) = Some t ->
            exists h1 h2,
              duration (decode B l t1) = Num h1
              /\ duration (decode B l t2) = Num h2 /\ 0 <= h2 <= h1).
  { intros t Ht. simpl. rewrite Ht, !durationHours_valid.
    do 2 eexists. split; [reflexivity|]. split; [reflexivity|].
    assert (H : - (t - t1) <= - (t - t2)) by lia.
    apply (Z.div_le_mono _ _ hour ltac:(unfold hour; lia)) in H. lia. }
  split; [reflexivity|]. split; [reflexivity|]. split; [reflexivity|].
  split; [|exact Hnum].
  destruct (Date_parse B (expirationDate l)) as [t|] eqn:Ht.
  - destruct (Hnum t eq_refl) as [h1 [h2 [H1 [H2 Hh]]]].
    destruct (Z.eq_dec h2 h1) as [->|Hne].
    + left. now rewrite H1, H2.
    + right. exists h1, h2. repeat split; try assumption. lia.
  - left. simpl. now rewrite Ht.
Qed.

Lemma decode_monotone_witness :
  let B := Reference.browser Samples.frozen Samples.offline Samples.yes in
  let t1 := Samples.frozen 0 in
  let t2 := Samples.new_year in
  t1 <= t2
  /\ Date_parse B (expirationDate Samples.soup) = Some Samples.new_year
  /\ exists h1 h2,
       duration (decode B Samples.soup t1) = Num h1
       /\ duration (decode B Samples.soup t2) = Num h2 /\ 0 <= h2 <= h1.
Proof.
  intros B t1 t2.
  assert (Hle : t1 <= t2) by (vm_compute; discriminate).
  split; [exact Hle|]. split; [reflexivity|].
  apply (proj2 (proj2 (proj2 (proj2 (decode_monotone B Samples.soup t1 t2 Hle))))
           Samples.new_year).
  reflexivity.
Defined.

(** From two hours before the expiration to the expiration the duration
    goes from 2 to 0. *)
Example duration_falls :
  let B := Reference.browser Samples.frozen Samples.offline Samples.yes in
  duration (decode B Samples.soup (Samples.frozen 0)) = Num 2
  /\ duration (decode B Samples.soup Samples.new_year) = Num 0.
Proof. split; vm_compute; reflexivity. Qed.

(** *** Refresh *)

Lemma duration_same_expiration (B : Browser) (l l' : ServerListing) (now : Z) :
  expirationDate l = expirationDate l' ->
  duration (decode B l now) = duration (decode B l' now).
Proof. intros H. unfold decode. cbn [duration]. now rewrite H. Qed.


(** C2, as amended.  In a refresh that succeeds the callback reads the
    clock once for each record: the record at position [i] is decoded at
    reading number [ticks w + i].  The durations refer to one instant when
    all these readings show the same time. *)
Theorem refresh_reads_clock_per_record (B : Browser) (s : State) (w : World)
    (records : list ServerListing) :
  list_result (network B list_request) = Some records ->
  listings (state_after (fetchListings B) s w) = decode_in_turn B (ticks w) records
  /\ ticks (world_after (fetchListings B) s w) = (ticks w + length records)%nat
  /\ (forall now,
        (forall i, (i < length records)%nat -> clock B (ticks w + i) = now) ->
        listings (state_after (fetchListings B) s w)
        = map (fun r => decode B r now) records).
Proof.
  intros Hr. unfold state_after, world_after. rewrite fetchListings_run.
  unfold list_result in Hr.
  destruct (network B list_request) as [e|status [e|env]]; try discriminate.
  unfold ok in *. simpl fst in *.
  destruct ((200 <=? status) && (status <=? 299)); simpl in Hr; [|discriminate].
  destruct (success env); [|discriminate].
  destruct (data env) as [rs|]; [|discriminate].
  injection Hr as ->. simpl. repeat split.
  intros now Hnow. now apply decode_in_turn_constant.
Qed.

Lemma refresh_reads_clock_per_record_witness :
  let B := Reference.browser Samples.frozen (Samples.always Samples.two_records)
                             Samples.yes in
  let records := [Samples.bread "Vegan, Gluten-Free" "2025-01-01T00:00:00.000Z";
                  Samples.soup] in
  list_result (network B list_request) = Some records
  /\ listings (state_after (fetchListings B) Samples.showing_soup Samples.fresh)
     = map (fun r => decode B r (Samples.frozen 0)) records.
Proof.
  intros B records. split; [reflexivity|].
  apply (refresh_reads_clock_per_record B Samples.showing_soup Samples.fresh records
           eq_refl).
  intros i _. reflexivity.
Defined.

(** C2, as stated, fails: with a clock that advances between two readings,
    two records with the same expiration get different durations in one
    refresh, so no single instant accounts for both. *)
Lemma refresh_durations_disagree :
  let B := Reference.browser Samples.ticking (Samples.always Samples.two_records)
                             Samples.yes in
  let records := [Samples.bread "Vegan, Gluten-Free" "2025-01-01T00:00:00.000Z";
                  Samples.soup] in
  let shown := listings (state_after (fetchListings B) Samples.showing_soup Samples.fresh) in
  list_result (network B list_request) = Some records
  /\ map expirationDate records
     = ["2025-01-01T00:00:00.000Z"; "2025-01-01T00:00:00.000Z"]
  /\ map duration shown = [Num 3; Num 2]
  /\ forall now, shown <> map (fun r => decode B r now) records.
Proof.
  intros B records shown.
  assert (Hd : map duration shown = [Num 3; Num 2]) by (vm_compute; reflexivity).
  repeat split; try reflexivity; try exact Hd.
  clearbody shown. clearbody B.
  intros now Heq. rewrite Heq in Hd. unfold records in Hd. cbn [map] in Hd.
  pose proof (f_equal (fun ds => nth 0 ds NaN) Hd) as H1.
  pose proof (f_equal (fun ds => nth 1 ds NaN) Hd) as H2.
  cbn [nth] in H1, H2.
  rewrite (duration_same_expiration B
             (Samples.bread "Vegan, Gluten-Free" "2025-01-01T00:00:00.000Z")
             Samples.soup now eq_refl) in H1.
  rewrite H1 in H2. discriminate.
Qed.

(** C3.  A refresh ends with the loading flag off.  When the list
    operation fails (a status outside 200..299, a false success flag, a
    payload that is not a sequence, or any other failure) the collection is
    the one held before and the error slot holds a message, which is not
    empty in the three named cases.  When it succeeds in full the
    collection is replaced by the decoded records and the error slot is
    empty. *)
Theorem refresh_all_or_nothing (B : Browser) (s : State) (w : World) :
  isLoading (state_after (fetchListings B) s w) = false
  /\ (list_failure (network B list_request) ->
        listings (state_after (fetchListings B) s w) = listings s
        /\ exists msg, error (state_after (fetchListings B) s w) = Some msg /\ msg <> "")
  /\ (list_result (network B list_request) = None ->
        listings (state_after (fetchListings B) s w) = listings s
        /\ exists msg, error (state_after (fetchListings B) s w) = Some msg)
  /\ (forall records, list_result (network B list_request) = Some records ->
        listings (state_after (fetchListings B) s w) = decode_in_turn B (ticks w) records
        /\ error (state_after (fetchListings B) s w) = None).
Proof.
  unfold state_after. rewrite fetchListings_run. cbv zeta.
  destruct (network B list_request) as [e|status body].
  - simpl. split; [reflexivity|]. split; [intros Hf; inversion Hf|].
    split; [intros _; split; [reflexivity | eexists; reflexivity]|].
    intros records H. discriminate H.
  - unfold list_result.
    destruct (ok (status, body)) eqn:Hok; simpl negb; cbv iota.
    + destruct body as [e|env].
      * simpl. split; [reflexivity|].
        split; [intros Hf; inversion Hf; congruence|].
        split; [intros _; split; [reflexivity | eexists; reflexivity]|].
        intros records H. discriminate H.
      * rewrite Hok. simpl andb.
        destruct (success env) eqn:Hs; [destruct (data env) as [rs|] eqn:Hd|]; simpl.
        -- split; [reflexivity|].
           split; [intros Hf; inversion Hf; congruence|].
           split; [intros H; discriminate H|].
           intros records H. injection H as ->. split; reflexivity.
        -- failure_case.
        -- failure_case.
    + assert (Hnone : match body with
                      | inl _ => None
                      | inr env =>
                          if ok (status, @inr Exn Envelope env) && success env
                          then match data env with
                               | IsArray records => Some records
                               | NotArray => None
                               end
                          else None
                      end = @None (list ServerListing)).
      { destruct body as [e|env]; [reflexivity|]. now rewrite Hok. }
      rewrite Hnone. simpl. failure_case.
Qed.

Lemma refresh_all_or_nothing_witness :
  let down := Reference.browser Samples.frozen (Samples.always Samples.not_found)
                                Samples.yes in
  let up := Reference.browser Samples.frozen (Samples.always Samples.two_records)
                              Samples.yes in
  (list_failure (network down list_request)
   /\ listings (state_after (fetchListings down) Samples.showing_soup Samples.fresh)
      = listings Samples.showing_soup)
  /\ (exists records,
        list_result (network up list_request) = Some records
        /\ listings (state_after (fetchListings up) Samples.showing_soup Samples.fresh)
           = decode_in_turn up 0 records).
Proof.
  intros down up. split.
  - assert (Hf : list_failure (network down list_request))
      by (apply list_http_error; reflexivity).
    split; [exact Hf|].
    exact (proj1 (proj1 (proj2 (refresh_all_or_nothing down Samples.showing_soup
                                  Samples.fresh)) Hf)).
  - eexists. split; [reflexivity|].
    exact (proj1 (proj2 (proj2 (proj2 (refresh_all_or_nothing up Samples.showing_soup
                                         Samples.fresh))) _ eq_refl)).
Defined.

(** *** Delete *)

Lemma handleDelete_declined (B : Browser) (target : Z) (s : State) (w : World) :
  confirm B delete_prompt = false ->
  handleDelete B target s w = (Normal tt, s, w).
Proof. intros H. rewrite handleDelete_run, H. reflexivity. Qed.

Lemma without_spec (target : Z) (ls : list Listing) (l : Listing) :
  In l (without target ls) <-> In l ls /\ id (wire l) <> target.
Proof.
  unfold without. rewrite filter_In, negb_true_iff, Z.eqb_neq. reflexivity.
Qed.

(** The step-by-step handler ends where [handleDelete] ends, and what it
    lets see is the prompt and, when the user agreed, the request, the
    reply and one state update, in this order. *)
Lemma handleDelete_watched (B : Browser) (target : Z) (s : State)
    (seen : list DashboardTrace.Event) (w : World) :
  DashboardTrace.handleDelete B target (s, seen) w
  = (completion_of (handleDelete B target) s w,
     (state_after (handleDelete B target) s w,
      if confirm B delete_prompt
      then (((seen ++ [DashboardTrace.Prompted delete_prompt true])
             ++ [DashboardTrace.Requested (delete_request target);
                 DashboardTrace.Replied (network B (delete_request target))])
            ++ [DashboardTrace.Updated (state_after (handleDelete B target) s w)])%list
      else (seen ++ [DashboardTrace.Prompted delete_prompt false])%list),
     world_after (handleDelete B target) s w).
Proof.
  unfold completion_of, state_after, world_after. rewrite handleDelete_run.
  unfold DashboardTrace.handleDelete, delete_prompt, delete_request, with_request,
    delete_failed.
  unfold bind at 1. unfold DashboardTrace.window_confirm. cbn [fst snd].
  destruct (confirm B _); cbv beta iota; cbn [negb]; [|reflexivity].
  unfold try_catch. unfold bind at 1. unfold DashboardTrace.fetch, fetch. cbn [fst snd].
  destruct (network B _) as [e|status body]; [reflexivity|].
  unfold bind at 1. unfold ok. cbn [fst].
  destruct body as [e|env].
  - destruct (negb _); reflexivity.
  - destruct (negb _); [reflexivity|].
    unfold bind, json, ret; simpl.
    destruct (success env); reflexivity.
Qed.

(** C4.  Once the user has confirmed, the request goes out.  If the server
    rejects it (a status outside 200..299, or a false success flag) or the
    call fails in any other way, the collection keeps exactly its entries
    and the error slot holds a message that is not empty.  The listings of
    the given identifier leave the collection only when the server has
    confirmed the delete.  Seen step by step, the handler touches the state
    once, after the reply has come in and never before: the events are the
    prompt, the request, the reply and then the one update that leaves the
    final state. *)
Theorem delete_commits_after_success (B : Browser) (target : Z) (s : State) (w : World) :
  confirm B delete_prompt = true ->
  sent (world_after (handleDelete B target) s w)
  = (sent w ++ [delete_request target])%list
  /\ (delete_failure (network B (delete_request target)) ->
        listings (state_after (handleDelete B target) s w) = listings s
        /\ exists msg,
             error (state_after (handleDelete B target) s w) = Some msg /\ msg <> "")
  /\ (delete_confirmed (network B (delete_request target)) = false ->
        listings (state_after (handleDelete B target) s w) = listings s
        /\ exists msg,
             error (state_after (handleDelete B target) s w) = Some msg /\ msg <> "")
  /\ (delete_confirmed (network B (delete_request target)) = true ->
        listings (state_after (handleDelete B target) s w) = without target (listings s)
        /\ error (state_after (handleDelete B target) s w) = error s
        /\ forall l, In l (listings (state_after (handleDelete B target) s w))
                     <-> In l (listings s) /\ id (wire l) <> target)
  /\ state_after (DashboardTrace.handleDelete B target) (s, []) w
     = (state_after (handleDelete B target) s w,
        [DashboardTrace.Prompted delete_prompt true;
         DashboardTrace.Requested (delete_request target);
         DashboardTrace.Replied (network B (delete_request target));
         DashboardTrace.Updated (state_after (handleDelete B target) s w)])
  /\ world_after (DashboardTrace.handleDelete B target) (s, []) w
     = world_after (handleDelete B target) s w.
Proof.
  intros Hyes.
  assert (Hsteps :
            state_after (DashboardTrace.handleDelete B target) (s, []) w
            = (state_after (handleDelete B target) s w,
               [DashboardTrace.Prompted delete_prompt true;
                DashboardTrace.Requested (delete_request target);
                DashboardTrace.Replied (network B (delete_request target));
                DashboardTrace.Updated (state_after (handleDelete B target) s w)])
            /\ world_after (DashboardTrace.handleDelete B target) (s, []) w
               = world_after (handleDelete B target) s w).
  { unfold state_after at 1, world_after at 1.
    rewrite handleDelete_watched, Hyes. split; reflexivity. }
  destruct Hsteps as [Hlog Hworld].
  unfold state_after, world_after in Hlog, Hworld |- *.
  rewrite Hlog, Hworld. clear Hlog Hworld.
  rewrite handleDelete_run, Hyes. simpl negb. cbv iota zeta.
  assert (Hmsg : forall m, exists msg,
             error (delete_failed s m) = Some msg /\ msg <> "").
  { intros m. eexists. split; [reflexivity | discriminate]. }
  destruct (network B (delete_request target)) as [e|status [e|env]].
  - simpl. split; [reflexivity|]. split; [intros Hf; inversion Hf|].
    split; [intros _; split; [reflexivity | apply Hmsg]|].
    split; [intros H; discriminate H|]. split; reflexivity.
  - simpl. split; [reflexivity|].
    split; [intros _; split; [reflexivity | apply Hmsg]|].
    split; [intros _; split; [reflexivity | apply Hmsg]|].
    split; [intros H; discriminate H|]. split; reflexivity.
  - unfold delete_confirmed.
    destruct (ok (status, @inr Exn Envelope env)) eqn:Hok; simpl negb; cbv iota.
    + destruct (success env) eqn:Hs; simpl.
      * split; [reflexivity|].
        split; [intros Hf; inversion Hf; congruence|].
        split; [intros H; discriminate H|].
        split; [|split; reflexivity].
        intros _. split; [reflexivity|]. split; [reflexivity|].
        intros l. apply without_spec.
      * split; [reflexivity|].
        split; [intros _; split; [reflexivity | apply Hmsg]|].
        split; [intros _; split; [reflexivity | apply Hmsg]|].
        split; [intros H; discriminate H|]. split; reflexivity.
    + simpl. split; [reflexivity|].
      split; [intros _; split; [reflexivity | apply Hmsg]|].
      split; [intros _; split; [reflexivity | apply Hmsg]|].
      split; [intros H; discriminate H|]. split; reflexivity.
Qed.

Lemma delete_commits_after_success_witness :
  let rejecting := Reference.browser Samples.frozen (Samples.always Samples.not_found)
                                     Samples.yes in
  let accepting := Reference.browser Samples.frozen (Samples.always Samples.deleted)
                                     Samples.yes in
  (confirm rejecting delete_prompt = true
   /\ delete_failure (network rejecting (delete_request 8))
   /\ listings (state_after (handleDelete rejecting 8) Samples.showing_soup Samples.fresh)
      = listings Samples.showing_soup)
  /\ (confirm accepting delete_prompt = true
      /\ delete_confirmed (network accepting (delete_request 8)) = true
      /\ listings (state_after (handleDelete accepting 8) Samples.showing_soup Samples.fresh)
         = without 8 (listings Samples.showing_soup)
      /\ snd (state_after (DashboardTrace.handleDelete accepting 8)
                (Samples.showing_soup, []) Samples.fresh)
         = [DashboardTrace.Prompted delete_prompt true;
            DashboardTrace.Requested (delete_request 8);
            DashboardTrace.Replied Samples.deleted;
            DashboardTrace.Updated
              (state_after (handleDelete accepting 8) Samples.showing_soup Samples.fresh)]).
Proof.
  intros rejecting accepting. split.
  - assert (Hf : delete_failure (network rejecting (delete_request 8)))
      by (apply delete_http_error; reflexivity).
    split; [reflexivity|]. split; [exact Hf|].
    exact (proj1 (proj1 (proj2 (delete_commits_after_success rejecting 8
                                  Samples.showing_soup Samples.fresh eq_refl)) Hf)).
  - pose proof (delete_commits_after_success accepting 8 Samples.showing_soup
                  Samples.fresh eq_refl) as H.
    split; [reflexivity|]. split; [reflexivity|]. split.
    + exact (proj1 (proj1 (proj2 (proj2 (proj2 H))) eq_refl)).
    + rewrite (proj1 (proj2 (proj2 (proj2 (proj2 H))))). reflexivity.
Defined.

(** *** Tags *)

Lemma tags_decode (B : Browser) (l : ServerListing) (now : Z) :
  tags (decode B l now) = Some (parseTags (dietaryRestrictions l)).
Proof. reflexivity. Qed.

Lemma parseTags_nonempty (restrictions : string) :
  restrictions <> "" ->
  parseTags restrictions = map trim (split "," restrictions).
Proof.
  intros H. unfold parseTags. apply truthy_spec in H. now rewrite H.
Qed.

Example parseTags_trailing_comma : parseTags "Vegan," = ["Vegan"; ""].
Proof. reflexivity. Qed.

Example parseTags_double_comma : parseTags "Vegan,,Halal" = ["Vegan"; ""; "Halal"].
Proof. reflexivity. Qed.

Example parseTags_no_comma : parseTags "no commas here" = ["no commas here"].
Proof. reflexivity. Qed.

(** C6.  The tags of a decoded record are the segments of the
    dietary-restriction string between its commas, in order, each trimmed
    of white space at both ends; the empty string gives no tag at all and
    "Vegan, Gluten-Free" gives the two tags "Vegan" and "Gluten-Free". *)
Theorem tags_are_trimmed_segments (B : Browser) (l : ServerListing) (now : Z) :
  (dietaryRestrictions l = "" -> tags (decode B l now) = Some [])
  /\ (dietaryRestrictions l = "Vegan, Gluten-Free" ->
        tags (decode B l now) = Some ["Vegan"; "Gluten-Free"])
  /\ (dietaryRestrictions l <> "" ->
        exists segments,
          join "," segments = dietaryRestrictions l
          /\ Forall (no_char ",") segments
          /\ tags (decode B l now) = Some (map trim segments))
  /\ (forall ts tag, tags (decode B l now) = Some ts -> In tag ts -> trimmed tag).
Proof.
  rewrite tags_decode. split; [|split; [|split]].
  - intros ->. reflexivity.
  - intros ->. reflexivity.
  - intros Hne. exists (split "," (dietaryRestrictions l)).
    split; [apply join_split|]. split; [apply split_no_sep|].
    now rewrite parseTags_nonempty.
  - intros ts tag Hts Hin. injection Hts as <-.
    unfold parseTags in Hin. destruct (truthy _); [|contradiction].
    apply in_map_iff in Hin. destruct Hin as [seg [<- _]].
    apply trim_spec.
Qed.

Lemma tags_are_trimmed_segments_witness :
  let B := Reference.browser Samples.frozen Samples.offline Samples.yes in
  let l := Samples.bread "Vegan, Gluten-Free" "2025-01-01T00:00:00.000Z" in
  (dietaryRestrictions l = "Vegan, Gluten-Free"
   /\ tags (decode B l 0) = Some ["Vegan"; "Gluten-Free"])
  /\ (dietaryRestrictions (Samples.bread "" "2025-01-01T00:00:00.000Z") = ""
      /\ tags (decode B (Samples.bread "" "2025-01-01T00:00:00.000Z") 0) = Some []).
Proof.
  intros B l. split; (split; [reflexivity|]).
  - exact (proj1 (proj2 (tags_are_trimmed_segments B l 0)) eq_refl).
  - exact (proj1 (tags_are_trimmed_segments B
                    (Samples.bread "" "2025-01-01T00:00:00.000Z") 0) eq_refl).
Defined.

(** C10.  When the dietary-restriction string is not empty, an empty
    segment between its commas is an empty tag at the same position of the
    decoded record: decoding removes no segment.  The tag display of the
    creation form never shows an empty tag. *)
Theorem empty_segments_survive_decode (B : Browser) (l : ServerListing) (now : Z)
    (i : nat) :
  dietaryRestrictions l <> "" ->
  nth_error (split "," (dietaryRestrictions l)) i = Some "" ->
  (exists ts,
     tags (decode B l now) = Some ts
     /\ length ts = length (split "," (dietaryRestrictions l))
     /\ nth_error ts i = Some "")
  /\ (forall form : NewListing.State, ~ In "" (NewListing.dietaryTags form)).
Proof.
  intros Hne Hseg. split.
  - exists (map trim (split "," (dietaryRestrictions l))).
    rewrite tags_decode, parseTags_nonempty by assumption.
    split; [reflexivity|]. split; [apply length_map|].
    rewrite nth_error_map, Hseg. reflexivity.
  - intros form Hin. unfold NewListing.dietaryTags in Hin.
    destruct (truthy _); [|contradiction].
    apply filter_In in Hin. destruct Hin as [_ Hin]. discriminate Hin.
Qed.

Lemma empty_segments_survive_decode_witness :
  let B := Reference.browser Samples.frozen Samples.offline Samples.yes in
  let l := Samples.bread "Vegan," "2025-01-01T00:00:00.000Z" in
  dietaryRestrictions l <> ""
  /\ nth_error (split "," (dietaryRestrictions l)) 1 = Some ""
  /\ exists ts,
       tags (decode B l 0) = Some ts
       /\ length ts = length (split "," (dietaryRestrictions l))
       /\ nth_error ts 1 = Some "".
Proof.
  intros B l.
  assert (Hne : dietaryRestrictions l <> "") by discriminate.
  split; [exact Hne|]. split; [reflexivity|].
  exact (proj1 (empty_segments_survive_decode B l 0 1 Hne eq_refl)).
Defined.

(** *** Search *)


Lemma filter_all_in (A : Type) (keep : A -> bool) (xs : list A) :
  (forall x, In x xs -> keep x = true) -> filter keep xs = xs.
Proof.
  induction xs as [|x xs IH]; intros H; simpl; [reflexivity|].
  rewrite (H x (or_introl eq_refl)), IH; [reflexivity|].
  intros y Hy. apply H. now right.
Qed.

Lemma matchesQuery_spec (q : string) (l : Listing) :
  matchesQuery q l = true <-> Matches q l.
Proof.
  unfold matchesQuery, Matches.
  rewrite !orb_true_iff, !includes_lower_spec. split.
  - intros [[H|H]|H]; [now left | now right; left | right; right].
    destruct (tags l) as [ts|]; [|discriminate].
    apply existsb_exists in H. destruct H as [tag [Hin Htag]].
    exists ts, tag. now rewrite <- includes_lower_spec.
  - intros [H|[H|[ts [tag [Hts [Hin Htag]]]]]]; [now left; left | now left; right | right].
    rewrite Hts. apply existsb_exists. exists tag. now rewrite includes_lower_spec.
Qed.




Example search_vegan_ignores_case :
  let B := Reference.browser Samples.frozen Samples.offline Samples.yes in
  let bread := decode B (Samples.bread "Halal" "2025-01-01T00:00:00.000Z") 0 in
  let soup := decode B Samples.soup 0 in
  filteredListings (mkState [bread; soup] "vegan" false None) = [soup]
  /\ filteredListings (mkState [bread; soup] "BAKERY" false None) = [bread; soup]
  /\ filteredListings (mkState [bread; soup] "rye" false None) = [].
Proof. repeat split; reflexivity. Qed.

End DashboardFacts.


(** ** The creation form *)

Module NewListingFacts.
Import JS Spec JSFacts NewListing.

Lemma addTag_run (s : State) (w : World) :
  addTag s w =
  (Normal tt,
   (if truthy (trim (tagInput s))
       && negb (includes (dietaryRestrictions (listing s)) (trim (tagInput s)))
    then tagged (trim (tagInput s)) s
    else s),
   w).
Proof.
  unfold addTag, bind, get.
  destruct (truthy (trim (tagInput s)) && negb _); reflexivity.
Qed.

Lemma dietaryTags_depends_on_listing (s s' : State) :
  listing s = listing s' -> dietaryTags s = dietaryTags s'.
Proof. unfold dietaryTags. now intros ->. Qed.

(** Once accepted, a tag is found in the string. *)
Lemma tagged_includes (tag : string) (s : State) :
  includes (dietaryRestrictions (listing (tagged tag s))) tag = true.
Proof.
  unfold tagged. cbn [listing dietaryRestrictions withRestrictions].
  destruct (truthy _).
  - rewrite <- append_assoc. apply includes_suffix.
  - apply includes_refl.
Qed.

(** C9.  [addTag] raises no error and touches nothing outside the form.
    When the trimmed input is empty or already occurs in the
    dietary-restriction string the form is unchanged.  Otherwise the
    trimmed input becomes the whole string if the string was empty, and is
    appended after ", " if not.  Typing the same tag and adding it a second
    time leaves the string, and the tags derived from it, as they were
    after the first time. *)
Theorem addTag_spec (s : State) (w : World) :
  completion_of addTag s w = Normal tt
  /\ world_after addTag s w = w
  /\ error (state_after addTag s w) = error s
  /\ (trim (tagInput s) = ""
      \/ includes (dietaryRestrictions (listing s)) (trim (tagInput s)) = true ->
      state_after addTag s w = s)
  /\ (trim (tagInput s) <> "" ->
      includes (dietaryRestrictions (listing s)) (trim (tagInput s)) = false ->
      (dietaryRestrictions (listing s) = "" ->
       dietaryRestrictions (listing (state_after addTag s w)) = trim (tagInput s))
      /\ (dietaryRestrictions (listing s) <> "" ->
          dietaryRestrictions (listing (state_after addTag s w))
          = dietaryRestrictions (listing s) ++ ", " ++ trim (tagInput s)))
  /\ (forall input,
        let once := state_after addTag (typed input s) w in
        let twice := state_after addTag (typed input once) w in
        dietaryRestrictions (listing twice) = dietaryRestrictions (listing once)
        /\ dietaryTags twice = dietaryTags once).
Proof.
  unfold completion_of, world_after, state_after.
  split; [now rewrite addTag_run|]. split; [now rewrite addTag_run|].
  split; [|split; [|split]].
  - rewrite addTag_run. simpl. destruct (_ && _); reflexivity.
  - rewrite addTag_run. simpl. intros [H|H].
    + apply truthy_false in H. now rewrite H.
    + rewrite H. now rewrite andb_false_r.
  - intros Hne Hnew. rewrite addTag_run. simpl.
    apply truthy_spec in Hne. rewrite Hne, Hnew. simpl. split.
    + intros Hd. apply truthy_false in Hd. now rewrite Hd.
    + intros Hd. apply truthy_spec in Hd. now rewrite Hd.
  - intros input.
    enough (H : listing (snd (fst (addTag (typed input (snd (fst (addTag (typed input s) w)))) w)))
                = listing (snd (fst (addTag (typed input s) w)))).
    { split; [now rewrite H | now apply dietaryTags_depends_on_listing]. }
    rewrite !addTag_run. simpl.
    destruct (truthy (trim input)
              && negb (includes (dietaryRestrictions (listing s)) (trim input))) eqn:Hfirst.
    + change (tagInput (typed input (tagged (trim input) (typed input s))))
        with input.
      change (listing (typed input (tagged (trim input) (typed input s))))
        with (listing (tagged (trim input) (typed input s))).
      rewrite tagged_includes, andb_false_r. reflexivity.
    + simpl. rewrite Hfirst. reflexivity.
Qed.

Lemma addTag_spec_witness :
  let s := Samples.editing "Vegan" "  Halal " None in
  trim (tagInput s) <> ""
  /\ includes (dietaryRestrictions (listing s)) (trim (tagInput s)) = false
  /\ dietaryRestrictions (listing s) <> ""
  /\ dietaryRestrictions (listing (state_after addTag s Samples.fresh)) = "Vegan, Halal"
  /\ (includes (dietaryRestrictions (listing (Samples.editing "Vegan, Halal" "Vegan" None)))
               (trim (tagInput (Samples.editing "Vegan, Halal" "Vegan" None))) = true
      /\ state_after addTag (Samples.editing "Vegan, Halal" "Vegan" None) Samples.fresh
         = Samples.editing "Vegan, Halal" "Vegan" None).
Proof.
  intros s.
  assert (H1 : trim (tagInput s) <> "") by discriminate.
  assert (H2 : dietaryRestrictions (listing s) <> "") by discriminate.
  split; [exact H1|]. split; [reflexivity|]. split; [exact H2|]. split.
  - exact (proj2 (proj1 (proj2 (proj2 (proj2 (proj2 (addTag_spec s Samples.fresh)))))
                    H1 eq_refl) H2).
  - split; [reflexivity|].
    exact (proj1 (proj2 (proj2 (proj2 (addTag_spec
                                         (Samples.editing "Vegan, Halal" "Vegan" None)
                                         Samples.fresh))))
             (or_intror eq_refl)).
Defined.

(** *** Tags of the form *)

Lemma removeTag_run (tag : string) (s : State) (w : World) :
  removeTag tag s w = (Normal tt, untagged tag s, w).
Proof. reflexivity. Qed.

Lemma dietaryTags_shown (s : State) :
  dietaryTags s = shown_tags (dietaryRestrictions (listing s)).
Proof.
  unfold dietaryTags, shown_tags.
  destruct (truthy (dietaryRestrictions (listing s))) eqn:H; [reflexivity|].
  apply truthy_false in H. now rewrite H.
Qed.

Lemma filter_swap (A : Type) (p q : A -> bool) (xs : list A) :
  filter p (filter q xs) = filter q (filter p xs).
Proof.
  induction xs as [|x xs IH]; simpl; [reflexivity|].
  destruct (p x) eqn:Hp, (q x) eqn:Hq; simpl; rewrite ?Hp, ?Hq, IH; reflexivity.
Qed.

Lemma filter_twice (A : Type) (p : A -> bool) (xs : list A) :
  filter p (filter p xs) = filter p xs.
Proof.
  induction xs as [|x xs IH]; simpl; [reflexivity|].
  destruct (p x) eqn:Hp; simpl; rewrite ?Hp, IH; reflexivity.
Qed.

Lemma map_trim_fixed (parts : list string) :
  Forall trimmed parts -> map trim parts = parts.
Proof.
  induction 1 as [|x rest Hx _ IH]; simpl; [reflexivity|].
  now rewrite (trim_fixed x Hx), IH.
Qed.

(** The trimmed segments of any string: no commas, no white space at the
    ends. *)
Lemma segments_clean (restrictions : string) :
  Forall (no_char ",") (map trim (split "," restrictions))
  /\ Forall trimmed (map trim (split "," restrictions)).
Proof.
  split; apply Forall_map.
  - eapply Forall_impl; [|apply split_no_sep]. intros seg. apply no_char_trim.
  - apply Forall_forall. intros seg _. apply trim_spec.
Qed.

Lemma Forall_filter (A : Type) (P : A -> Prop) (p : A -> bool) (xs : list A) :
  Forall P xs -> Forall P (filter p xs).
Proof.
  intros H. apply Forall_forall. intros x Hx. apply filter_In in Hx.
  rewrite Forall_forall in H. now apply H.
Qed.

Lemma join_empty_shows_nothing (parts : list string) :
  join ", " parts = "" -> filter truthy parts = [].
Proof.
  unfold join. destruct parts as [|x [|y rest]]; simpl.
  - reflexivity.
  - now intros ->.
  - destruct x; discriminate.
Qed.

(** What a string glued by [removeTag] shows: the parts that are not
    empty. *)
Lemma shown_tags_join (parts : list string) :
  Forall (no_char ",") parts -> Forall trimmed parts ->
  shown_tags (join ", " parts) = filter truthy parts.
Proof.
  intros Hc Ht. unfold shown_tags.
  destruct parts as [|x rest]; [reflexivity|].
  rewrite map_trim_split_join by (assumption || discriminate).
  now rewrite map_trim_fixed.
Qed.

Lemma shown_tags_removed (tag restrictions : string) :
  shown_tags (join ", " (filter (differs tag) (map trim (split "," restrictions))))
  = filter (differs tag) (shown_tags restrictions).
Proof.
  destruct (segments_clean restrictions) as [Hc Ht].
  rewrite shown_tags_join by now apply Forall_filter.
  unfold shown_tags. apply filter_swap.
Qed.

(** What the string shows after [addTag] has appended [tag] to it. *)
Lemma shown_tags_appended (restrictions tag : string) :
  restrictions <> "" ->
  shown_tags (restrictions ++ ", " ++ tag)
  = (shown_tags restrictions ++ shown_tags tag)%list.
Proof.
  intros _. unfold shown_tags.
  change (restrictions ++ ", " ++ tag)
    with (restrictions ++ String "," (String " " tag)).
  now rewrite split_app, map_app, map_trim_split_space, filter_app.
Qed.

Lemma shown_tags_single (tag : string) :
  tag <> "" -> no_char "," tag -> trimmed tag -> shown_tags tag = [tag].
Proof.
  intros Hne Hc Ht. unfold shown_tags.
  rewrite (split_without_sep _ _ Hc). simpl. rewrite (trim_fixed _ Ht).
  apply truthy_spec in Hne. now rewrite Hne.
Qed.

(** A tag on display occurs in the string. *)
Lemma shown_tag_included (restrictions tag : string) :
  In tag (shown_tags restrictions) -> includes restrictions tag = true.
Proof.
  unfold shown_tags. intros Hin. apply filter_In in Hin. destruct Hin as [Hin _].
  apply in_map_iff in Hin. destruct Hin as [seg [<- Hseg]].
  eapply includes_trans; [eapply includes_segment; eassumption | apply includes_trim].
Qed.

Lemma filter_differs_absent (tag : string) (tags : list string) :
  ~ In tag tags -> filter (differs tag) tags = tags.
Proof.
  intros Hout. induction tags as [|x rest IH]; simpl; [reflexivity|].
  unfold differs at 1. destruct (String.eqb_spec x tag) as [->|Hne]; simpl.
  - exfalso. apply Hout. now left.
  - rewrite IH; [reflexivity|]. intros Hin. apply Hout. now right.
Qed.

(** *** Submit *)

(** [handleSubmit] on a draft that has no image. *)
Lemma handleSubmit_without_image (B : Browser) (s : State) (w : World) :
  image (listing s) = None ->
  handleSubmit B s w
  = (Normal tt,
     mkState (listing s) (tagInput s) (previewImage s) false
             "Please upload an image for your listing",
     w).
Proof.
  intros Himg. unfold handleSubmit.
  unfold bind at 1. unfold setError at 1, modify at 1.
  unfold bind at 1. unfold setIsSubmitting at 1, modify at 1.
  unfold finally, try_catch. unfold bind at 1. unfold get. cbn [listing].
  rewrite Himg. reflexivity.
Qed.

(** With a picture, a readable date and a server that accepts, one request
    goes out and the page moves to the dashboard. *)
Lemma handleSubmit_with_image (B : Browser) (s : State) (w : World)
    (file : File) (t : Z) (status : Z) (env : Envelope) :
  image (listing s) = Some file ->
  Date_parse B (expirationDate (listing s)) = Some t ->
  network B (create_request B (listing s) file t) = Response status (inr env) ->
  ok (status, @inr Exn Envelope env) = true ->
  handleSubmit B s w
  = (Normal tt,
     mkState (listing s) (tagInput s) (previewImage s) false "",
     mkWorld (ticks w) (sent w ++ [create_request B (listing s) file t])%list
             (visited w ++ ["/donor/dashboard"])%list).
Proof.
  intros Himg Hdate Hnet Hok. unfold handleSubmit.
  unfold bind at 1. unfold setError at 1, modify at 1.
  unfold bind at 1. unfold setIsSubmitting at 1, modify at 1.
  unfold finally, try_catch. unfold bind at 1. unfold get. cbn [listing].
  rewrite Himg. unfold bind at 1. unfold formData. rewrite Hdate.
  unfold bind at 1. unfold ret at 1. unfold ret at 1.
  unfold bind at 1. unfold fetch. unfold create_request in Hnet. rewrite Hnet.
  unfold bind at 1. rewrite Hok. simpl negb. cbv iota.
  unfold ret at 1. unfold bind at 1. unfold json. simpl snd. cbv iota.
  unfold ret at 1. unfold navigate. reflexivity.
Qed.

(** C5.  Submitting a draft without an image sends no request and visits
    no page: the world is as before.  The form shows an error message, its
    draft and its tag input are unchanged, and the submitting flag is
    off. *)
Theorem submit_without_image (B : Browser) (s : State) (w : World) :
  image (listing s) = None ->
  completion_of (handleSubmit B) s w = Normal tt
  /\ world_after (handleSubmit B) s w = w
  /\ sent (world_after (handleSubmit B) s w) = sent w
  /\ error (state_after (handleSubmit B) s w) = "Please upload an image for your listing"
  /\ error (state_after (handleSubmit B) s w) <> ""
  /\ listing (state_after (handleSubmit B) s w) = listing s
  /\ tagInput (state_after (handleSubmit B) s w) = tagInput s
  /\ isSubmitting (state_after (handleSubmit B) s w) = false.
Proof.
  intros Himg. unfold completion_of, world_after, state_after.
  rewrite (handleSubmit_without_image B s w Himg). simpl.
  repeat split; try reflexivity. discriminate.
Qed.

Lemma submit_without_image_witness :
  let B := Reference.browser Samples.frozen (Samples.always Samples.created)
                             Samples.yes in
  let s := Samples.editing "Vegan" "" None in
  image (listing s) = None
  /\ sent (world_after (handleSubmit B) s Samples.fresh) = []
  /\ isSubmitting (state_after (handleSubmit B) s Samples.fresh) = false.
Proof.
  intros B s. split; [reflexivity|].
  pose proof (submit_without_image B s Samples.fresh eq_refl) as H.
  split; [apply H | apply H].
Defined.

(** The same draft with a picture does reach the server. *)
Example submit_with_image_sends :
  let B := Reference.browser Samples.frozen (Samples.always Samples.created)
                             Samples.yes in
  let s := Samples.editing "Vegan" "" (Some Samples.photo) in
  map method (sent (world_after (handleSubmit B) s Samples.fresh)) = [POST]
  /\ visited (world_after (handleSubmit B) s Samples.fresh) = ["/donor/dashboard"].
Proof. split; vm_compute; reflexivity. Qed.

End NewListingFacts.

(** ** More on the creation form *)

Module NewListingMore.
Import JS Spec JSFacts NewListing NewListingInputs NewListingFacts.

Lemma tagged_restrictions (tag : string) (s : State) :
  dietaryRestrictions (listing (tagged tag s))
  = if truthy (dietaryRestrictions (listing s))
    then dietaryRestrictions (listing s) ++ ", " ++ tag
    else tag.
Proof. reflexivity. Qed.

Lemma addTag_accepted (s : State) (w : World) :
  trim (tagInput s) <> "" ->
  includes (dietaryRestrictions (listing s)) (trim (tagInput s)) = false ->
  state_after addTag s w = tagged (trim (tagInput s)) s.
Proof.
  intros Hne Hnew. unfold state_after. rewrite addTag_run. simpl.
  apply truthy_spec in Hne. now rewrite Hne, Hnew.
Qed.

Lemma tagged_shows (tag : string) (s : State) :
  dietaryTags (tagged tag s) = (dietaryTags s ++ shown_tags tag)%list.
Proof.
  rewrite !dietaryTags_shown, tagged_restrictions.
  destruct (truthy (dietaryRestrictions (listing s))) eqn:Hd.
  - apply shown_tags_appended. now apply truthy_spec.
  - apply truthy_false in Hd. now rewrite Hd.
Qed.

Lemma untagged_shows (tag : string) (s : State) :
  dietaryTags (untagged tag s) = filter (differs tag) (dietaryTags s).
Proof. rewrite !dietaryTags_shown. apply shown_tags_removed. Qed.

Lemma dietaryTags_depends_on_listing_restrictions (s s' : State) :
  dietaryRestrictions (listing s) = dietaryRestrictions (listing s') ->
  dietaryTags s = dietaryTags s'.
Proof. unfold dietaryTags. now intros ->. Qed.

Lemma differs_spec (tag other : string) : differs tag other = true <-> other <> tag.
Proof. unfold differs. rewrite negb_true_iff. apply String.eqb_neq. Qed.

(** X1.  [removeTag] takes the given tag, and only it, off the tags the
    form shows: the other tags stay, in their order. *)
Theorem removeTag_removes (tag : string) (s : State) (w : World) :
  dietaryTags (state_after (removeTag tag) s w) = filter (differs tag) (dietaryTags s)
  /\ ~ In tag (dietaryTags (state_after (removeTag tag) s w))
  /\ (forall other, other <> tag ->
        (In other (dietaryTags (state_after (removeTag tag) s w))
         <-> In other (dietaryTags s))).
Proof.
  unfold state_after. rewrite removeTag_run. simpl. rewrite untagged_shows.
  split; [reflexivity|]. split.
  - intros Hin. apply filter_In in Hin. destruct Hin as [_ Hd].
    apply differs_spec in Hd. now apply Hd.
  - intros other Hne. rewrite filter_In, differs_spec. tauto.
Qed.

(** X2.  Removing the same tag a second time changes nothing in the
    form. *)
Theorem removeTag_idempotent (tag : string) (s : State) (w w' : World) :
  state_after (removeTag tag) (state_after (removeTag tag) s w) w'
  = state_after (removeTag tag) s w.
Proof.
  unfold state_after. rewrite !removeTag_run. simpl.
  unfold untagged. simpl. f_equal. unfold withRestrictions. simpl. f_equal.
  destruct (segments_clean (dietaryRestrictions (listing s))) as [Hc Ht].
  set (kept := filter (differs tag)
                 (map trim (split "," (dietaryRestrictions (listing s))))) in *.
  assert (Hkc : Forall (no_char ",") kept) by now apply Forall_filter.
  assert (Hkt : Forall trimmed kept) by now apply Forall_filter.
  destruct kept as [|x rest] eqn:Hk.
  - simpl. unfold differs. destruct (negb _); reflexivity.
  - rewrite map_trim_split_join by (assumption || discriminate).
    rewrite map_trim_fixed by assumption.
    rewrite <- Hk. unfold kept. now rewrite filter_twice.
Qed.

(** X3.  When [addTag] accepts an input, the tags it shows afterwards are
    the earlier ones followed by the tags of the input; an input without a
    comma adds the one tag at the end. *)
Theorem addTag_appends (s : State) (w : World) :
  trim (tagInput s) <> "" ->
  includes (dietaryRestrictions (listing s)) (trim (tagInput s)) = false ->
  dietaryTags (state_after addTag s w)
  = (dietaryTags s ++ shown_tags (trim (tagInput s)))%list
  /\ (no_char "," (trim (tagInput s)) ->
      dietaryTags (state_after addTag s w) = (dietaryTags s ++ [trim (tagInput s)])%list).
Proof.
  intros Hne Hnew. rewrite (addTag_accepted s w Hne Hnew), tagged_shows.
  split; [reflexivity|]. intros Hc.
  rewrite shown_tags_single; try assumption; [reflexivity | apply trim_spec].
Qed.

Lemma addTag_appends_witness :
  let s := Samples.editing "Vegan" "  Halal " None in
  trim (tagInput s) <> ""
  /\ includes (dietaryRestrictions (listing s)) (trim (tagInput s)) = false
  /\ no_char "," (trim (tagInput s))
  /\ dietaryTags (state_after addTag s Samples.fresh) = ["Vegan"; "Halal"].
Proof.
  intros s.
  assert (H1 : trim (tagInput s) <> "") by discriminate.
  assert (H3 : no_char "," (trim (tagInput s))).
  { vm_compute. repeat split; discriminate. }
  split; [exact H1|]. split; [reflexivity|]. split; [exact H3|].
  exact (proj2 (addTag_appends s Samples.fresh H1 eq_refl) H3).
Defined.

(** X4.  Adding a tag that has no comma and then removing it gives back
    the tags the form showed before. *)
Theorem addTag_then_removeTag (s : State) (w w' : World) :
  trim (tagInput s) <> "" ->
  includes (dietaryRestrictions (listing s)) (trim (tagInput s)) = false ->
  no_char "," (trim (tagInput s)) ->
  dietaryTags (state_after (removeTag (trim (tagInput s))) (state_after addTag s w) w')
  = dietaryTags s.
Proof.
  intros Hne Hnew Hc. rewrite (addTag_accepted s w Hne Hnew).
  unfold state_after. rewrite removeTag_run. simpl.
  rewrite untagged_shows, tagged_shows, filter_app.
  rewrite shown_tags_single; try assumption; [|apply trim_spec].
  simpl. unfold differs at 2. rewrite String.eqb_refl. simpl.
  rewrite app_nil_r. apply filter_differs_absent.
  intros Hin. rewrite dietaryTags_shown in Hin.
  apply shown_tag_included in Hin. congruence.
Qed.

Lemma addTag_then_removeTag_witness :
  let s := Samples.editing "Vegan, Kosher" " Halal" None in
  trim (tagInput s) <> ""
  /\ includes (dietaryRestrictions (listing s)) (trim (tagInput s)) = false
  /\ no_char "," (trim (tagInput s))
  /\ dietaryTags (state_after (removeTag "Halal") (state_after addTag s Samples.fresh)
                    Samples.fresh)
     = dietaryTags s.
Proof.
  intros s.
  assert (H1 : trim (tagInput s) <> "") by discriminate.
  assert (H3 : no_char "," (trim (tagInput s))).
  { vm_compute. repeat split; discriminate. }
  split; [exact H1|]. split; [reflexivity|]. split; [exact H3|].
  exact (addTag_then_removeTag s Samples.fresh Samples.fresh H1 eq_refl H3).
Defined.

(** *** Submit, path by path *)

Lemma or_else_nonempty (a : option string) (b : string) :
  b <> "" -> or_else a b <> "".
Proof.
  intros Hb. unfold or_else. destruct a as [m|]; [|assumption].
  destruct (truthy m) eqn:Hm; [now apply truthy_spec | assumption].
Qed.

Lemma or_else_some (m b : string) : m <> "" -> or_else (Some m) b = m.
Proof. intros Hm. unfold or_else. apply truthy_spec in Hm. now rewrite Hm. Qed.

Lemma create_error_nonempty (status : Z) (env : Envelope) :
  create_error status env <> "".
Proof. apply or_else_nonempty. discriminate. Qed.

Lemma submit_default_nonempty : submit_default <> "".
Proof. discriminate. Qed.

(** [handleSubmit], path by path. *)
Lemma handleSubmit_run (B : Browser) (s : State) (w : World) :
  handleSubmit B s w =
  match image (listing s) with
  | None => (Normal tt, settled s "Please upload an image for your listing", w)
  | Some file =>
      match Date_parse B (expirationDate (listing s)) with
      | None =>
          (Normal tt, settled s (or_else (Some (RangeError_message B)) submit_default), w)
      | Some t =>
          let req := create_request B (listing s) file t in
          match network B req with
          | Rejected e =>
              (Normal tt, settled s (or_else (message_of e) submit_default),
               with_request w req)
          | Response status (inl e) =>
              (Normal tt, settled s (or_else (message_of e) submit_default),
               with_request w req)
          | Response status (inr env) =>
              if ok (status, @inr Exn Envelope env)
              then (Normal tt, settled s "",
                    mkWorld (ticks w) (sent w ++ [req])%list
                            (visited w ++ ["/donor/dashboard"])%list)
              else (Normal tt, settled s (create_error status env), with_request w req)
          end
      end
  end.
Proof.
  destruct (image (listing s)) as [file|] eqn:Himg;
    [|now apply handleSubmit_without_image].
  unfold handleSubmit.
  unfold bind at 1. unfold setError at 1, modify at 1.
  unfold bind at 1. unfold setIsSubmitting at 1, modify at 1.
  unfold finally, try_catch. unfold bind at 1. unfold get. cbn [listing].
  rewrite Himg. unfold bind at 1. unfold formData.
  destruct (Date_parse B (expirationDate (listing s))) as [t|]; [|reflexivity].
  unfold bind at 1. unfold ret at 1. unfold ret at 1.
  unfold bind at 1. unfold fetch.
  change (mkRequest POST api true _) with (create_request B (listing s) file t).
  cbv zeta.
  destruct (network B (create_request B (listing s) file t)) as [e|status [e|env]];
    [reflexivity| |].
  - unfold bind at 1. unfold ok. cbn [fst].
    destruct ((200 <=? status) && (status <=? 299)); reflexivity.
  - unfold bind at 1. unfold ok. cbn [fst].
    destruct ((200 <=? status) && (status <=? 299)); simpl negb; cbv iota.
    + reflexivity.
    + unfold bind, json, throw, setError, setIsSubmitting, modify. simpl.
      unfold settled, with_request. simpl.
      set (m := or_else (message env) _).
      change m with (create_error status env).
      now rewrite (proj2 (truthy_spec _) (create_error_nonempty status env)).
Qed.

Lemma settled_error_nonempty (s : State) (a : option string) :
  error (settled s (or_else a submit_default)) <> "".
Proof. simpl. apply or_else_nonempty, submit_default_nonempty. Qed.

(** X5.  Whatever the draft and the server, [handleSubmit] ends without
    throwing, with the draft, the tag input and the preview as they were
    and the submitting flag off; it sends at most one request, a POST with
    credentials to the listings address.  It moves to the dashboard on
    exactly the path where the error slot ends up empty, and only after a
    request has gone out. *)
Theorem submit_settles (B : Browser) (s : State) (w : World) :
  completion_of (handleSubmit B) s w = Normal tt
  /\ listing (state_after (handleSubmit B) s w) = listing s
  /\ tagInput (state_after (handleSubmit B) s w) = tagInput s
  /\ previewImage (state_after (handleSubmit B) s w) = previewImage s
  /\ isSubmitting (state_after (handleSubmit B) s w) = false
  /\ (sent (world_after (handleSubmit B) s w) = sent w
      \/ exists req,
           sent (world_after (handleSubmit B) s w) = (sent w ++ [req])%list
           /\ method req = POST /\ url req = api /\ credentials_include req = true)
  /\ ((visited (world_after (handleSubmit B) s w) = visited w
       /\ error (state_after (handleSubmit B) s w) <> "")
      \/ (visited (world_after (handleSubmit B) s w)
          = (visited w ++ ["/donor/dashboard"])%list
          /\ error (state_after (handleSubmit B) s w) = ""
          /\ sent (world_after (handleSubmit B) s w) <> sent w)).
Proof.
  unfold completion_of, state_after, world_after. rewrite handleSubmit_run.
  destruct (image (listing s)) as [file|].
  2: { simpl. repeat split; try reflexivity; [now left | left; split; [reflexivity | discriminate]]. }
  destruct (Date_parse B (expirationDate (listing s))) as [t|].
  2: { cbn [fst snd]. repeat split; try reflexivity; [now left | left].
       split; [reflexivity | apply settled_error_nonempty]. }
  cbv zeta.
  assert (Hreq : forall sn, sn = (sent w ++ [create_request B (listing s) file t])%list ->
            sn = sent w
            \/ exists req, sn = (sent w ++ [req])%list
                 /\ method req = POST /\ url req = api /\ credentials_include req = true).
  { intros sn ->. right. eexists. repeat split. }
  destruct (network B (create_request B (listing s) file t)) as [e|status [e|env]].
  - cbn [fst snd]. repeat split; try reflexivity; [now apply Hreq | left].
    split; [reflexivity | apply settled_error_nonempty].
  - cbn [fst snd]. repeat split; try reflexivity; [now apply Hreq | left].
    split; [reflexivity | apply settled_error_nonempty].
  - destruct (ok (status, @inr Exn Envelope env)); cbn [fst snd].
    + repeat split; try reflexivity; [now apply Hreq | right].
      split; [reflexivity|]. split; [reflexivity|]. simpl.
      intros H. apply (f_equal (@length Request)) in H.
      rewrite length_app in H. simpl in H. lia.
    + repeat split; try reflexivity; [now apply Hreq | left].
      split; [reflexivity | apply create_error_nonempty].
Qed.

(** X6.  With an image attached and an expiration that is not a date,
    [handleSubmit] sends nothing: [toISOString] throws, and the error slot
    takes the message of that [RangeError], or the fallback text when that
    message is empty. *)
Theorem submit_unparsable_date (B : Browser) (s : State) (w : World) (file : File) :
  image (listing s) = Some file ->
  Date_parse B (expirationDate (listing s)) = None ->
  world_after (handleSubmit B) s w = w
  /\ error (state_after (handleSubmit B) s w)
     = or_else (Some (RangeError_message B)) submit_default
  /\ error (state_after (handleSubmit B) s w) <> "".
Proof.
  intros Himg Hdate. unfold state_after, world_after.
  rewrite handleSubmit_run, Himg, Hdate. cbn [fst snd].
  split; [reflexivity|]. split; [reflexivity | apply settled_error_nonempty].
Qed.

Lemma submit_unparsable_date_witness :
  let B := Reference.browser Samples.frozen (Samples.always Samples.created)
                             Samples.yes in
  let s := NewListing.mkState
             (NewListing.mkDraft "Fresh bread" "Corner Bakery" "12 Main St"
                                 (NumberValue 1) "" "" "Available" "tomorrow"
                                 (Some Samples.photo))
             "" None false "" in
  Date_parse B (expirationDate (listing s)) = None
  /\ world_after (handleSubmit B) s Samples.fresh = Samples.fresh
  /\ error (state_after (handleSubmit B) s Samples.fresh) = "Invalid time value".
Proof.
  intros B s. split; [reflexivity|].
  pose proof (submit_unparsable_date B s Samples.fresh Samples.photo eq_refl eq_refl) as H.
  split; [apply H|]. exact (proj1 (proj2 H)).
Defined.

(** X7.  When the server answers the request with a status outside
    200..299 and a JSON body, the error slot takes the [message] of that
    body, or "Error <status>: Failed to create listing" when it has none;
    the page stays on the form and the request is not repeated. *)
Theorem submit_rejected (B : Browser) (s : State) (w : World)
    (file : File) (t status : Z) (env : Envelope) :
  image (listing s) = Some file ->
  Date_parse B (expirationDate (listing s)) = Some t ->
  network B (create_request B (listing s) file t) = Response status (inr env) ->
  ok (status, @inr Exn Envelope env) = false ->
  error (state_after (handleSubmit B) s w)
  = or_else (message env) ("Error " ++ show status ++ ": Failed to create listing")
  /\ visited (world_after (handleSubmit B) s w) = visited w
  /\ sent (world_after (handleSubmit B) s w)
     = (sent w ++ [create_request B (listing s) file t])%list.
Proof.
  intros Himg Hdate Hnet Hok. unfold state_after, world_after.
  rewrite handleSubmit_run, Himg, Hdate. cbv zeta. rewrite Hnet, Hok.
  repeat split.
Qed.

Lemma submit_rejected_witness :
  let refusal := Response 400 (inr (mkEnvelope false NotArray (Some "Title is required"))) in
  let B := Reference.browser Samples.frozen (Samples.always refusal) Samples.yes in
  let s := Samples.editing "Vegan" "" (Some Samples.photo) in
  error (state_after (handleSubmit B) s Samples.fresh) = "Title is required"
  /\ visited (world_after (handleSubmit B) s Samples.fresh) = []
  /\ length (sent (world_after (handleSubmit B) s Samples.fresh)) = 1%nat.
Proof.
  intros refusal B s.
  pose proof (submit_rejected B s Samples.fresh Samples.photo Samples.new_year 400
                (mkEnvelope false NotArray (Some "Title is required"))
                eq_refl eq_refl eq_refl eq_refl) as H.
  split; [exact (proj1 H)|]. split; [exact (proj1 (proj2 H))|].
  rewrite (proj2 (proj2 H)). reflexivity.
Defined.

Lemma not_longer (A : Type) (xs : list A) (x : A) : xs <> (xs ++ [x])%list.
Proof.
  intros H. apply (f_equal (@length A)) in H. rewrite length_app in H. simpl in H. lia.
Qed.

(** X23.  [handleSubmit] moves to the dashboard exactly when the draft has
    an image, its expiration parses as a date, and the server answers the
    request with a status in 200..299 and a body that is JSON.  A reply
    with such a status whose body is not JSON counts as a failure. *)
Theorem submit_succeeds_iff (B : Browser) (s : State) (w : World) :
  visited (world_after (handleSubmit B) s w) = (visited w ++ ["/donor/dashboard"])%list
  <-> exists file t status env,
        image (listing s) = Some file
        /\ Date_parse B (expirationDate (listing s)) = Some t
        /\ network B (create_request B (listing s) file t) = Response status (inr env)
        /\ ok (status, @inr Exn Envelope env) = true.
Proof.
  unfold world_after. rewrite handleSubmit_run. split.
  - destruct (image (listing s)) as [file|];
      [|intros H; simpl in H; destruct (not_longer _ _ _ H)].
    destruct (Date_parse B (expirationDate (listing s))) as [t|];
      [|intros H; simpl in H; destruct (not_longer _ _ _ H)].
    cbv zeta.
    destruct (network B (create_request B (listing s) file t)) as [e|status [e|env]] eqn:Hnet;
      try (intros H; simpl in H; destruct (not_longer _ _ _ H)).
    destruct (ok (status, @inr Exn Envelope env)) eqn:Hok;
      [|intros H; simpl in H; destruct (not_longer _ _ _ H)].
    intros _. now exists file, t, status, env.
  - intros [file [t [status [env [Himg [Hdate [Hnet Hok]]]]]]].
    rewrite Himg, Hdate. cbv zeta. now rewrite Hnet, Hok.
Qed.

(** *** The inputs *)

Lemma handleChange_run (i : Input) (v : string) (s : State) (w : World) :
  handleChange i v s w = (Normal tt, changed i v s, w).
Proof. reflexivity. Qed.

Lemma handleImageChange_run (url : File -> string) (files : option (list File))
    (s : State) (w : World) :
  handleImageChange url files s w
  = (Normal tt,
     match files with
     | Some (file :: _) => attached url file s
     | _ => s
     end,
     w).
Proof. destruct files as [[|file rest]|]; reflexivity. Qed.

Lemma state_after_handleChange (i : Input) (v : string) (s : State) (w : World) :
  state_after (handleChange i v) s w = changed i v s.
Proof. reflexivity. Qed.

(** The request does not depend on the organization of the draft. *)
Lemma create_request_organization (B : Browser) (d : Draft) (v : string)
    (file : File) (t : Z) :
  create_request B (withField organization_input v d) file t = create_request B d file t.
Proof. reflexivity. Qed.

(** Enter in the tag box is the Add button; no other key does anything. *)
Lemma handleKeyDown_run (key : string) (s : State) (w : World) :
  handleKeyDown key s w = if (key =? "Enter")%string then addTag s w else (Normal tt, s, w).
Proof. unfold handleKeyDown. now destruct (key =? "Enter")%string. Qed.

(** X8.  The organization typed in the form is never sent: whatever it is
    changed to, [handleSubmit] sends the same requests, visits the same
    pages and ends with the same error. *)
Theorem organization_not_sent (B : Browser) (v : string) (s : State) (w0 w : World) :
  world_after (handleSubmit B) (state_after (handleChange organization_input v) s w0) w
  = world_after (handleSubmit B) s w
  /\ error (state_after (handleSubmit B)
              (state_after (handleChange organization_input v) s w0) w)
     = error (state_after (handleSubmit B) s w)
  /\ forall file t value,
       ~ In ("organization", value) (form (create_request B (listing s) file t)).
Proof.
  rewrite !state_after_handleChange.
  unfold state_after, world_after. rewrite !handleSubmit_run.
  change (image (listing (changed organization_input v s))) with (image (listing s)).
  change (expirationDate (listing (changed organization_input v s)))
    with (expirationDate (listing s)).
  split; [|split].
  - destruct (image (listing s)) as [file|]; [|reflexivity].
    destruct (Date_parse B (expirationDate (listing s))) as [t|]; [|reflexivity].
    cbv zeta.
    change (listing (changed organization_input v s))
      with (withField organization_input v (listing s)).
    rewrite create_request_organization.
    destruct (network B _) as [e|status [e|env]]; try reflexivity.
    destruct (ok _); reflexivity.
  - destruct (image (listing s)) as [file|]; [|reflexivity].
    destruct (Date_parse B (expirationDate (listing s))) as [t|]; [|reflexivity].
    cbv zeta.
    change (listing (changed organization_input v s))
      with (withField organization_input v (listing s)).
    rewrite create_request_organization.
    destruct (network B _) as [e|status [e|env]]; try reflexivity.
    destruct (ok _); reflexivity.
  - intros file t value Hin. simpl in Hin.
    repeat (destruct Hin as [Hin|Hin]; [discriminate Hin|]). exact Hin.
Qed.

(** X9.  What the user typed last in the title, quantity, description or
    location input is what [handleSubmit] sends under that key, as text;
    what was typed in the expiration input is sent as the ISO string of
    the date it parses to. *)
Theorem typed_values_are_sent (B : Browser) (i : Input) (v : string)
    (s : State) (w0 w : World) (file : File) (t : Z) :
  image (listing s) = Some file ->
  Date_parse B (expirationDate (listing (state_after (handleChange i v) s w0))) = Some t ->
  exists req,
    sent (world_after (handleSubmit B) (state_after (handleChange i v) s w0) w)
    = (sent w ++ [req])%list
    /\ (forall key, sent_under i = Some key -> In (key, Text v) (form req))
    /\ (i = expirationDate_input ->
        Date_parse B v = Some t
        /\ In ("expirationDate", Text (Date_toISOString B t)) (form req)).
Proof.
  rewrite !state_after_handleChange.
  intros Himg Hdate.
  exists (create_request B (listing (changed i v s)) file t).
  split; [|split].
  - unfold world_after. rewrite handleSubmit_run.
    assert (Hi : image (listing (changed i v s)) = Some file)
      by (destruct i; exact Himg).
    rewrite Hi, Hdate. cbv zeta.
    destruct (network B _) as [e|status [e|env]]; try reflexivity.
    destruct (ok _); reflexivity.
  - intros key Hkey. destruct i; simpl in Hkey; try discriminate;
      injection Hkey as <-; simpl; tauto.
  - intros ->. split; [exact Hdate|]. simpl. tauto.
Qed.

Lemma typed_values_are_sent_witness :
  let B := Reference.browser Samples.frozen (Samples.always Samples.created)
                             Samples.yes in
  let s := Samples.editing "Vegan" "" (Some Samples.photo) in
  exists req,
    sent (world_after (handleSubmit B)
            (state_after (handleChange quantity_input "25") s Samples.fresh)
            Samples.fresh)
    = [req]
    /\ In ("quantity", Text "25") (form req).
Proof.
  intros B s.
  destruct (typed_values_are_sent B quantity_input "25" s Samples.fresh Samples.fresh
              Samples.photo Samples.new_year eq_refl eq_refl)
    as [req [Hsent [Hkey _]]].
  exists req. split; [exact Hsent | exact (Hkey "quantity" eq_refl)].
Defined.

(** X10.  [handleChange] changes the one field of its input: the image,
    the dietary restrictions and the availability status of the draft stay,
    and so does the rest of the form.  Changes to two different inputs give
    the same draft in either order; of two changes to the same input the
    later one counts. *)
Theorem handleChange_one_field (i j : Input) (u v : string) (s : State) (w : World) :
  image (listing (state_after (handleChange i v) s w)) = image (listing s)
  /\ dietaryRestrictions (listing (state_after (handleChange i v) s w))
     = dietaryRestrictions (listing s)
  /\ availabilityStatus (listing (state_after (handleChange i v) s w))
     = availabilityStatus (listing s)
  /\ dietaryTags (state_after (handleChange i v) s w) = dietaryTags s
  /\ world_after (handleChange i v) s w = w
  /\ (i <> j ->
      state_after (handleChange j u) (state_after (handleChange i v) s w) w
      = state_after (handleChange i v) (state_after (handleChange j u) s w) w)
  /\ state_after (handleChange i u) (state_after (handleChange i v) s w) w
     = state_after (handleChange i u) s w.
Proof.
  rewrite !state_after_handleChange.
  unfold world_after. rewrite handleChange_run. cbn [fst snd].
  repeat split.
  - destruct i; reflexivity.
  - destruct i; reflexivity.
  - destruct i; reflexivity.
  - apply dietaryTags_depends_on_listing_restrictions. destruct i; reflexivity.
  - intros Hne. destruct i, j; try reflexivity; contradiction.
  - destruct i; reflexivity.
Qed.

Lemma handleChange_one_field_witness :
  let s := Samples.editing "Vegan" "" (Some Samples.photo) in
  title_input <> quantity_input
  /\ state_after (handleChange quantity_input "25")
       (state_after (handleChange title_input "Rye bread") s Samples.fresh) Samples.fresh
     = state_after (handleChange title_input "Rye bread")
         (state_after (handleChange quantity_input "25") s Samples.fresh) Samples.fresh.
Proof.
  intros s.
  assert (Hne : title_input <> quantity_input) by discriminate.
  split; [exact Hne|].
  exact (proj1 (proj2 (proj2 (proj2 (proj2 (proj2
           (handleChange_one_field title_input quantity_input "25" "Rye bread"
              s Samples.fresh)))))) Hne).
Defined.

(** X11.  [handleImageChange] with no file in the event leaves the form as
    it is, an image attached earlier included.  With files it attaches the
    first one and shows its object URL, keeping the other fields; a submit
    after that, with an expiration that parses, sends that file as the
    [images] part. *)
Theorem handleImageChange_attaches (B : Browser) (url : File -> string)
    (s : State) (w0 w : World) :
  state_after (handleImageChange url None) s w0 = s
  /\ state_after (handleImageChange url (Some [])) s w0 = s
  /\ (forall file rest,
        image (listing (state_after (handleImageChange url (Some (file :: rest))) s w0))
        = Some file
        /\ previewImage (state_after (handleImageChange url (Some (file :: rest))) s w0)
           = Some (url file)
        /\ dietaryTags (state_after (handleImageChange url (Some (file :: rest))) s w0)
           = dietaryTags s
        /\ (forall t,
              Date_parse B (expirationDate (listing s)) = Some t ->
              exists req,
                sent (world_after (handleSubmit B)
                        (state_after (handleImageChange url (Some (file :: rest))) s w0) w)
                = (sent w ++ [req])%list
                /\ In ("images", Blob file) (form req))).
Proof.
  unfold state_after. rewrite !handleImageChange_run. cbn [fst snd].
  split; [reflexivity|]. split; [reflexivity|].
  intros file rest. rewrite handleImageChange_run. cbn [fst snd].
  split; [reflexivity|]. split; [reflexivity|].
  split; [now apply dietaryTags_depends_on_listing_restrictions|].
  intros t Hdate.
  exists (create_request B (listing (attached url file s)) file t).
  split.
  - unfold world_after. rewrite handleSubmit_run.
    change (image (listing (attached url file s))) with (Some file).
    change (expirationDate (listing (attached url file s)))
      with (expirationDate (listing s)).
    rewrite Hdate. cbv zeta.
    destruct (network B _) as [e|status [e|env]]; try reflexivity.
    destruct (ok _); reflexivity.
  - simpl. tauto.
Qed.

Lemma handleImageChange_attaches_witness :
  let B := Reference.browser Samples.frozen (Samples.always Samples.created)
                             Samples.yes in
  let s := Samples.editing "Vegan" "" None in
  let url := fun f : File => "blob:" ++ file_name f in
  Date_parse B (expirationDate (listing s)) = Some Samples.new_year
  /\ exists req,
       sent (world_after (handleSubmit B)
               (state_after (handleImageChange url (Some [Samples.photo])) s Samples.fresh)
               Samples.fresh)
       = [req]
       /\ In ("images", Blob Samples.photo) (form req).
Proof.
  intros B s url. split; [reflexivity|].
  exact (proj2 (proj2 (proj2
           (proj2 (proj2 (handleImageChange_attaches B url s Samples.fresh Samples.fresh))
              Samples.photo []))) Samples.new_year eq_refl).
Defined.

End NewListingMore.

(** ** More on the dashboard *)

Module DashboardMore.
Import JS Spec JSFacts Dashboard DashboardView DashboardFacts NewListingFacts.

(** *** Delete *)

Lemma without_twice (target : Z) (ls : list Listing) :
  without target (without target ls) = without target ls.
Proof. unfold without. apply filter_twice. Qed.

Lemma without_absent (target : Z) (ls : list Listing) :
  (forall l, In l ls -> id (wire l) <> target) -> without target ls = ls.
Proof.
  intros H. unfold without. apply filter_all_in. intros l Hl.
  apply negb_true_iff, Z.eqb_neq. now apply H.
Qed.

Lemma handleDelete_confirmed (B : Browser) (target : Z) (s : State) (w : World) :
  confirm B delete_prompt = true ->
  delete_confirmed (network B (delete_request target)) = true ->
  handleDelete B target s w
  = (Normal tt,
     mkState (without target (listings s)) (searchQuery s) (isLoading s) (error s),
     with_request w (delete_request target)).
Proof.
  intros Hyes Hok. rewrite handleDelete_run, Hyes. simpl negb. cbv iota zeta.
  unfold delete_confirmed in Hok.
  destruct (network B (delete_request target)) as [e|status [e|env]];
    try discriminate.
  apply andb_true_iff in Hok. destruct Hok as [H1 H2]. now rewrite H1, H2.
Qed.

Lemma handleDelete_outcomes (B : Browser) (target : Z) (s : State) (w : World) :
  handleDelete B target s w = (Normal tt, s, w)
  \/ (exists m, handleDelete B target s w
                = (Normal tt, delete_failed s m, with_request w (delete_request target)))
  \/ handleDelete B target s w
     = (Normal tt,
        mkState (without target (listings s)) (searchQuery s) (isLoading s) (error s),
        with_request w (delete_request target)).
Proof.
  rewrite handleDelete_run.
  destruct (negb (confirm B delete_prompt)); [now left|]. cbv zeta.
  destruct (network B (delete_request target)) as [e|status [e|env]].
  - right; left. now eexists.
  - right; left. now eexists.
  - destruct (negb (ok _)); [right; left; now eexists|].
    destruct (success env); [now right; right | right; left; now eexists].
Qed.

(** X12.  [handleDelete] never throws, never touches the search text or
    the loading flag, never reads the clock and never leaves the page.  If
    the user declines the prompt nothing happens at all: no request goes
    out.  In every case the collection afterwards is the earlier one or
    the earlier one without the listings of the given identifier, so no
    listing is ever added. *)
Theorem handleDelete_frame (B : Browser) (target : Z) (s : State) (w : World) :
  completion_of (handleDelete B target) s w = Normal tt
  /\ searchQuery (state_after (handleDelete B target) s w) = searchQuery s
  /\ isLoading (state_after (handleDelete B target) s w) = isLoading s
  /\ ticks (world_after (handleDelete B target) s w) = ticks w
  /\ visited (world_after (handleDelete B target) s w) = visited w
  /\ (confirm B delete_prompt = false ->
      state_after (handleDelete B target) s w = s
      /\ world_after (handleDelete B target) s w = w)
  /\ (listings (state_after (handleDelete B target) s w) = listings s
      \/ listings (state_after (handleDelete B target) s w) = without target (listings s))
  /\ (forall l, In l (listings (state_after (handleDelete B target) s w)) ->
                In l (listings s)).
Proof.
  unfold completion_of, state_after, world_after.
  split; [|split; [|split; [|split; [|split; [|split; [|split]]]]]].
  - destruct (handleDelete_outcomes B target s w) as [H|[[m H]|H]]; now rewrite H.
  - destruct (handleDelete_outcomes B target s w) as [H|[[m H]|H]]; now rewrite H.
  - destruct (handleDelete_outcomes B target s w) as [H|[[m H]|H]]; now rewrite H.
  - destruct (handleDelete_outcomes B target s w) as [H|[[m H]|H]]; now rewrite H.
  - destruct (handleDelete_outcomes B target s w) as [H|[[m H]|H]]; now rewrite H.
  - intros Hno. now rewrite (handleDelete_declined B target s w Hno).
  - destruct (handleDelete_outcomes B target s w) as [H|[[m H]|H]]; rewrite H;
      simpl; auto.
  - intros l. destruct (handleDelete_outcomes B target s w) as [H|[[m H]|H]];
      rewrite H; simpl; auto.
    intros Hin. now apply without_spec in Hin.
Qed.

Lemma handleDelete_frame_witness :
  let B := Reference.browser Samples.frozen (Samples.always Samples.deleted)
                             (fun _ => false) in
  confirm B delete_prompt = false
  /\ state_after (handleDelete B 8) Samples.showing_soup Samples.fresh
     = Samples.showing_soup
  /\ world_after (handleDelete B 8) Samples.showing_soup Samples.fresh = Samples.fresh.
Proof.
  intros B. split; [reflexivity|].
  exact (proj1 (proj2 (proj2 (proj2 (proj2 (proj2
           (handleDelete_frame B 8 Samples.showing_soup Samples.fresh)))))) eq_refl).
Defined.

(** X13.  After a delete that the server confirmed no listing has the
    identifier any more, so running [handleDelete] for it again leaves the
    collection as the first run left it, whatever the user and the server
    answer the second time.  If the second delete is confirmed too, the
    whole state stays; if the server now rejects it, only the error slot
    changes, to a message that starts with "Failed to delete listing: ". *)
Theorem handleDelete_idempotent (B B' : Browser) (target : Z) (s : State)
    (w w' : World) :
  confirm B delete_prompt = true ->
  delete_confirmed (network B (delete_request target)) = true ->
  listings (state_after (handleDelete B' target) (state_after (handleDelete B target) s w) w')
  = listings (state_after (handleDelete B target) s w)
  /\ (confirm B' delete_prompt = true ->
      delete_confirmed (network B' (delete_request target)) = true ->
      state_after (handleDelete B' target) (state_after (handleDelete B target) s w) w'
      = state_after (handleDelete B target) s w)
  /\ (confirm B' delete_prompt = true ->
      delete_confirmed (network B' (delete_request target)) = false ->
      exists m,
        state_after (handleDelete B' target) (state_after (handleDelete B target) s w) w'
        = delete_failed (state_after (handleDelete B target) s w) m).
Proof.
  intros Hyes Hok.
  assert (Hfirst : state_after (handleDelete B target) s w
                   = mkState (without target (listings s)) (searchQuery s)
                             (isLoading s) (error s)).
  { unfold state_after. now rewrite (handleDelete_confirmed B target s w Hyes Hok). }
  rewrite !Hfirst. clear Hfirst.
  split; [|split].
  - unfold state_after.
    destruct (handleDelete_outcomes B' target
                (mkState (without target (listings s)) (searchQuery s) (isLoading s)
                         (error s)) w') as [H|[[m H]|H]];
      rewrite H; simpl; try reflexivity.
    apply without_twice.
  - intros Hyes' Hok'. unfold state_after.
    rewrite (handleDelete_confirmed B' target _ _ Hyes' Hok'). simpl.
    now rewrite without_twice.
  - intros Hyes' Hno'. unfold state_after.
    rewrite handleDelete_run, Hyes'. cbn [negb]. cbv zeta.
    unfold delete_confirmed in Hno'.
    destruct (network B' (delete_request target)) as [e|status [e|env]];
      [now eexists | now eexists |].
    destruct (ok (status, @inr Exn Envelope env)); simpl in *; [|now eexists].
    rewrite Hno'. now eexists.
Qed.

Lemma handleDelete_idempotent_witness :
  let first := Reference.browser Samples.frozen (Samples.always Samples.deleted)
                                 Samples.yes in
  let second := Reference.browser Samples.frozen (Samples.always Samples.not_found)
                                  Samples.yes in
  confirm first delete_prompt = true
  /\ delete_confirmed (network first (delete_request 8)) = true
  /\ delete_confirmed (network second (delete_request 8)) = false
  /\ listings (state_after (handleDelete second 8)
                 (state_after (handleDelete first 8) Samples.showing_soup Samples.fresh)
                 Samples.fresh)
     = listings (state_after (handleDelete first 8) Samples.showing_soup Samples.fresh).
Proof.
  intros first second. split; [reflexivity|]. split; [reflexivity|].
  split; [reflexivity|].
  exact (proj1 (handleDelete_idempotent first second 8 Samples.showing_soup
                  Samples.fresh Samples.fresh eq_refl eq_refl)).
Defined.

(** X14.  Deleting an identifier that no listing of the collection has
    leaves the collection as it is, whatever the user and the server
    answer. *)
Theorem handleDelete_absent (B : Browser) (target : Z) (s : State) (w : World) :
  (forall l, In l (listings s) -> id (wire l) <> target) ->
  listings (state_after (handleDelete B target) s w) = listings s.
Proof.
  intros Habs. unfold state_after.
  destruct (handleDelete_outcomes B target s w) as [H|[[m H]|H]]; rewrite H; simpl;
    try reflexivity.
  now apply without_absent.
Qed.

Lemma handleDelete_absent_witness :
  let B := Reference.browser Samples.frozen (Samples.always Samples.deleted)
                             Samples.yes in
  (forall l, In l (listings Samples.showing_soup) -> id (wire l) <> 7)
  /\ listings (state_after (handleDelete B 7) Samples.showing_soup Samples.fresh)
     = listings Samples.showing_soup.
Proof.
  intros B.
  assert (H : forall l, In l (listings Samples.showing_soup) -> id (wire l) <> 7).
  { intros l [<-|[]]. discriminate. }
  split; [exact H|].
  exact (handleDelete_absent B 7 Samples.showing_soup Samples.fresh H).
Defined.

(** X15.  Search and delete commute: after a delete that the server
    confirmed, the search shows what it showed before without the listings
    of the deleted identifier. *)
Theorem delete_then_search (B : Browser) (target : Z) (s : State) (w : World) :
  confirm B delete_prompt = true ->
  delete_confirmed (network B (delete_request target)) = true ->
  filteredListings (state_after (handleDelete B target) s w)
  = without target (filteredListings s).
Proof.
  intros Hyes Hok. unfold state_after.
  rewrite (handleDelete_confirmed B target s w Hyes Hok). simpl.
  unfold filteredListings, without. simpl. apply filter_swap.
Qed.

Lemma delete_then_search_witness :
  let B := Reference.browser Samples.frozen (Samples.always Samples.deleted)
                             Samples.yes in
  confirm B delete_prompt = true
  /\ delete_confirmed (network B (delete_request 8)) = true
  /\ filteredListings (state_after (handleDelete B 8) Samples.showing_soup Samples.fresh)
     = without 8 (filteredListings Samples.showing_soup).
Proof.
  intros B. split; [reflexivity|]. split; [reflexivity|].
  exact (delete_then_search B 8 Samples.showing_soup Samples.fresh eq_refl eq_refl).
Defined.

(** *** Refresh *)

Lemma wire_decode_in_turn (B : Browser) (records : list ServerListing) (n : nat) :
  map wire (decode_in_turn B n records) = records.
Proof.
  revert n; induction records as [|r rest IH]; intros n; simpl;
    [reflexivity | now rewrite IH].
Qed.

Lemma derived_decode (B : Browser) (r : ServerListing) (now : Z) :
  derived (decode B r now).
Proof.
  unfold derived. simpl. repeat split; try reflexivity.
Qed.

Lemma derived_decode_in_turn (B : Browser) (records : list ServerListing) (n : nat) :
  Forall derived (decode_in_turn B n records).
Proof.
  revert n; induction records as [|r rest IH]; intros n; simpl; constructor;
    [apply derived_decode | apply IH].
Qed.

Lemma fetchListings_success (B : Browser) (s : State) (w : World)
    (records : list ServerListing) :
  list_result (network B list_request) = Some records ->
  fetchListings B s w
  = (Normal tt,
     mkState (decode_in_turn B (ticks w) records) (searchQuery s) false None,
     mkWorld (ticks w + length records)%nat (sent w ++ [list_request])%list (visited w)).
Proof.
  intros Hr. rewrite fetchListings_run. unfold list_result in Hr. cbv zeta.
  destruct (network B list_request) as [e|status [e|env]]; try discriminate.
  destruct (ok (status, @inr Exn Envelope env)) eqn:Hok; simpl in Hr; [|discriminate].
  destruct (success env); [|discriminate].
  destruct (data env) as [rs|]; [|discriminate].
  injection Hr as ->. reflexivity.
Qed.

Lemma fetchListings_failure (B : Browser) (s : State) (w : World) :
  list_result (network B list_request) = None ->
  exists msg,
    fetchListings B s w = (Normal tt, failed s msg, with_request w list_request).
Proof.
  intros Hr. rewrite fetchListings_run. unfold list_result in Hr. cbv zeta.
  destruct (network B list_request) as [e|status [e|env]].
  - now eexists.
  - destruct (negb (ok _)); now eexists.
  - destruct (ok (status, @inr Exn Envelope env)) eqn:Hok; simpl in *.
    + destruct (success env); [destruct (data env); [discriminate|]|]; now eexists.
    + now eexists.
Qed.

Lemma list_result_cases (r : Reply) :
  list_result r = None \/ exists records, list_result r = Some records.
Proof. destruct (list_result r) as [records|]; [right; now exists records | now left]. Qed.

(** X16.  After a refresh that succeeds the listings carry the received
    records unchanged and in the order received, one listing per record,
    and each has reservation count 0, the status of its record, the first
    image URL of its record if it has one, and the tags of its
    dietary-restriction string. *)
Theorem refresh_keeps_records (B : Browser) (s : State) (w : World)
    (records : list ServerListing) :
  list_result (network B list_request) = Some records ->
  map wire (listings (state_after (fetchListings B) s w)) = records
  /\ length (listings (state_after (fetchListings B) s w)) = length records
  /\ Forall derived (listings (state_after (fetchListings B) s w)).
Proof.
  intros Hr. unfold state_after. rewrite (fetchListings_success B s w records Hr).
  simpl. split; [apply wire_decode_in_turn|]. split.
  - rewrite <- (wire_decode_in_turn B records (ticks w)) at 2.
    now rewrite length_map.
  - apply derived_decode_in_turn.
Qed.

Lemma refresh_keeps_records_witness :
  let B := Reference.browser Samples.ticking (Samples.always Samples.two_records)
                             Samples.yes in
  exists records,
    list_result (network B list_request) = Some records
    /\ map wire (listings (state_after (fetchListings B) Samples.showing_soup
                             Samples.fresh))
       = records.
Proof.
  intros B. eexists. split; [reflexivity|].
  exact (proj1 (refresh_keeps_records B Samples.showing_soup Samples.fresh _ eq_refl)).
Defined.

(** X17.  [fetchListings] never throws and never leaves the page; it keeps
    the search text and sends exactly one request, the GET with
    credentials.  It reads the clock once per record of a reply that is a
    success with an array of records, and not at all when the refresh
    fails before the records are decoded: a rejected request, a status
    outside 200..299, a body that is not JSON, a false success flag or a
    payload that is not an array. *)
Theorem refresh_frame (B : Browser) (s : State) (w : World) :
  completion_of (fetchListings B) s w = Normal tt
  /\ searchQuery (state_after (fetchListings B) s w) = searchQuery s
  /\ sent (world_after (fetchListings B) s w) = (sent w ++ [list_request])%list
  /\ visited (world_after (fetchListings B) s w) = visited w
  /\ (list_result (network B list_request) = None ->
      ticks (world_after (fetchListings B) s w) = ticks w)
  /\ (forall records, list_result (network B list_request) = Some records ->
      ticks (world_after (fetchListings B) s w) = (ticks w + length records)%nat).
Proof.
  unfold completion_of, state_after, world_after.
  destruct (list_result_cases (network B list_request)) as [Hn|[records Hr]].
  - destruct (fetchListings_failure B s w Hn) as [msg H]. rewrite H, Hn. simpl.
    repeat split. intros ? Habs. discriminate Habs.
  - rewrite (fetchListings_success B s w records Hr), Hr. simpl.
    repeat split; try discriminate. intros ? Heq. now injection Heq as <-.
Qed.

Lemma refresh_frame_witness :
  let B := Reference.browser Samples.ticking (Samples.always Samples.not_found)
                             Samples.yes in
  list_result (network B list_request) = None
  /\ ticks (world_after (fetchListings B) Samples.showing_soup Samples.fresh) = 0%nat.
Proof.
  intros B. split; [reflexivity|].
  exact (proj1 (proj2 (proj2 (proj2 (proj2
           (refresh_frame B Samples.showing_soup Samples.fresh))))) eq_refl).
Defined.

(** *** Search *)

(** [searching q s] is the dashboard after [q] was typed in the search
    box. *)
Lemma setSearchQuery_run (q : string) (s : State) (w : World) :
  setSearchQuery q s w = (Normal tt, searching q s, w).
Proof. reflexivity. Qed.

Lemma includes_lower_narrow (x pre q post : string) :
  includes (toLowerCase x) (toLowerCase (pre ++ q ++ post)) = true ->
  includes (toLowerCase x) (toLowerCase q) = true.
Proof.
  intros H. eapply includes_trans; [exact H|].
  rewrite !toLowerCase_app. apply includes_spec. now eexists; eexists.
Qed.

Lemma matchesQuery_narrow (pre q post : string) (l : Listing) :
  matchesQuery (pre ++ q ++ post) l = true -> matchesQuery q l = true.
Proof.
  unfold matchesQuery. rewrite !orb_true_iff.
  intros [[H|H]|H].
  - left; left. eapply includes_lower_narrow; eassumption.
  - left; right. eapply includes_lower_narrow; eassumption.
  - right. destruct (tags l) as [ts|]; [|discriminate].
    apply existsb_exists in H. destruct H as [tag [Hin Htag]].
    apply existsb_exists. exists tag. split; [assumption|].
    eapply includes_lower_narrow; eassumption.
Qed.

Lemma filter_refines (A : Type) (p q : A -> bool) (xs : list A) :
  (forall x, p x = true -> q x = true) ->
  filter p (filter q xs) = filter p xs.
Proof.
  intros Hpq. induction xs as [|x xs IH]; simpl; [reflexivity|].
  destruct (q x) eqn:Hq; simpl.
  - now rewrite IH.
  - destruct (p x) eqn:Hp; [|exact IH]. apply Hpq in Hp. congruence.
Qed.

(** X18.  For texts of code units below U+0100, where [toLowerCase] maps
    each character on its own: typing more around a query never brings a
    listing back.  What the search shows for a longer query that contains
    the earlier one is what the longer query keeps of the earlier
    result. *)
Theorem longer_query_narrows (pre q post : string) (s : State) :
  filteredListings (searching (pre ++ q ++ post) s)
  = filter (matchesQuery (pre ++ q ++ post)) (filteredListings (searching q s))
  /\ incl (filteredListings (searching (pre ++ q ++ post) s))
          (filteredListings (searching q s)).
Proof.
  unfold filteredListings, searching. simpl. split.
  - symmetry. apply filter_refines. intros l. apply matchesQuery_narrow.
  - intros l Hin. apply filter_In in Hin. destruct Hin as [Hin Hm].
    apply filter_In. split; [assumption|]. now apply (matchesQuery_narrow pre q post).
Qed.

Lemma occurs_ignoring_case_same (q tag : string) :
  toLowerCase q = toLowerCase tag -> occurs_ignoring_case q tag.
Proof.
  intros H. exists "", tag, "". rewrite append_nil_r. split; [reflexivity|].
  now apply toLowerCase_same_letters.
Qed.

(** X19.  A listing is found by each of its tags, typed in any letter
    case: if the query equals, up to case, one of the tags decoded from a
    record, the search keeps that record's listing. *)
Theorem tag_finds_listing (B : Browser) (r : ServerListing) (now : Z)
    (tag q : string) (s : State) :
  In tag (parseTags (dietaryRestrictions r)) ->
  toLowerCase q = toLowerCase tag ->
  In (decode B r now) (listings s) ->
  In (decode B r now) (filteredListings (searching q s)).
Proof.
  intros Htag Hq Hin. unfold filteredListings, searching. simpl.
  apply filter_In. split; [assumption|].
  apply matchesQuery_spec. right; right.
  exists (parseTags (dietaryRestrictions r)), tag.
  split; [reflexivity|]. split; [assumption|]. now apply occurs_ignoring_case_same.
Qed.

Lemma tag_finds_listing_witness :
  let B := Reference.browser Samples.frozen Samples.offline Samples.yes in
  In "Vegan" (parseTags (dietaryRestrictions Samples.soup))
  /\ toLowerCase "vEGAN" = toLowerCase "Vegan"
  /\ In (decode B Samples.soup (Samples.frozen 0))
        (filteredListings (searching "vEGAN" Samples.showing_soup)).
Proof.
  intros B.
  assert (H1 : In "Vegan" (parseTags (dietaryRestrictions Samples.soup)))
    by (left; reflexivity).
  split; [exact H1|]. split; [reflexivity|].
  apply (tag_finds_listing B Samples.soup (Samples.frozen 0) "Vegan" "vEGAN"
           Samples.showing_soup H1 eq_refl).
  left. reflexivity.
Defined.

(** *** What the page shows *)

Lemma substring_last (x : string) (b : ascii) :
  substring (String.length x) 1 (x ++ String b "") = String b "".
Proof. induction x as [|a x IH]; simpl; [reflexivity | exact IH]. Qed.

Lemma length_with_last (x : string) (b : ascii) :
  String.length (x ++ String b "") = S (String.length x).
Proof. induction x as [|a x IH]; simpl; [reflexivity | now rewrite IH]. Qed.

Lemma slice_last_one (x : string) (b : ascii) :
  slice_last (x ++ String b "") 1 = String b "".
Proof.
  unfold slice_last. rewrite length_with_last.
  replace (S (String.length x) - 1)%nat with (String.length x) by lia.
  apply substring_last.
Qed.

(** A string that is not empty ends with a character. *)
Lemma last_character (n : string) :
  n <> "" -> exists x b, n = x ++ String b "".
Proof.
  induction n as [|a r IH]; intros Hne; [contradiction|].
  destruct r as [|c r'].
  - now exists "", a.
  - destruct (IH ltac:(discriminate)) as [x [b Hr]].
    exists (String a x), b. simpl. now rewrite <- Hr.
Qed.

(** X20.  The badge shows "U" when the cached profile has no name or an
    empty one.  For any other name it shows two characters, the first and
    the last of the name, so a name of one letter shows that letter
    twice. *)
Theorem initials_spec :
  initials None = "U"
  /\ initials (Some "") = "U"
  /\ (forall a, initials (Some (String a "")) = String a (String a ""))
  /\ (forall a mid b,
        initials (Some (String a (mid ++ String b ""))) = String a (String b ""))
  /\ (forall n, n <> "" -> String.length (initials (Some n)) = 2%nat).
Proof.
  split; [reflexivity|]. split; [reflexivity|]. split; [reflexivity|].
  assert (Hlong : forall a mid b,
             initials (Some (String a (mid ++ String b ""))) = String a (String b "")).
  { intros a mid b. unfold initials. cbn [truthy String.eqb negb charAt String.get].
    change (String a (mid ++ String b "")) with (String a mid ++ String b "").
    now rewrite slice_last_one. }
  split; [exact Hlong|].
  intros n Hne. destruct n as [|a r]; [contradiction|].
  destruct r as [|c r']; [reflexivity|].
  destruct (last_character (String c r') ltac:(discriminate)) as [x [b Hr]].
  rewrite Hr, Hlong. reflexivity.
Qed.

Lemma initials_spec_witness :
  "Corner Bakery" <> "" /\ initials (Some "Corner Bakery") = "Cy".
Proof.
  split; [discriminate|].
  exact (proj1 (proj2 (proj2 (proj2 initials_spec))) "C"%char "orner Baker" "y"%char).
Defined.

Lemma body_not_loading (s : State) :
  isLoading s = false ->
  body s <> Spinner /\ (body s = NoListings <-> filteredListings s = []).
Proof.
  intros H. unfold body. rewrite H.
  destruct (filteredListings s) as [|l ls]; simpl.
  - split; [discriminate | tauto].
  - split; [discriminate|]. split; discriminate.
Qed.

Lemma fetchListings_named_failure (B : Browser) (s : State) (w : World) :
  list_failure (network B list_request) ->
  exists msg,
    msg <> ""
    /\ fetchListings B s w = (Normal tt, failed s msg, with_request w list_request).
Proof.
  intros Hf. rewrite fetchListings_run. cbv zeta.
  inversion Hf as [status body Hok Heq | status env Hok Hs Heq | status env Hok Hd Heq].
  - rewrite Hok. simpl. eexists. split; [|reflexivity]. discriminate.
  - rewrite Hok, Hs. simpl. eexists. split; [|reflexivity]. discriminate.
  - rewrite Hok, Hd. simpl. exists "Invalid response format".
    split; [discriminate|]. now destruct (success env).
Qed.

(** X21.  When a refresh has finished the spinner is gone, whatever the
    reply: the page shows the cards of exactly the listings that match the
    search, in their order, or the "No listings yet" panel when none
    matches.  After a refresh that failed the main area is what the earlier
    collection gives, and for a failure of the protocol the banner shows
    the message. *)
Theorem refresh_shows_result (B : Browser) (s : State) (w : World) :
  body (state_after (fetchListings B) s w) <> Spinner
  /\ (body (state_after (fetchListings B) s w) = NoListings
      <-> filteredListings (state_after (fetchListings B) s w) = [])
  /\ (filteredListings (state_after (fetchListings B) s w) <> [] ->
      body (state_after (fetchListings B) s w)
      = Cards (filteredListings (state_after (fetchListings B) s w)))
  /\ (forall records, list_result (network B list_request) = Some records ->
      filteredListings (state_after (fetchListings B) s w)
      = filter (matchesQuery (searchQuery s)) (decode_in_turn B (ticks w) records))
  /\ (list_result (network B list_request) = None ->
      body (state_after (fetchListings B) s w) = body (loaded s))
  /\ (list_failure (network B list_request) ->
      exists msg, banner (state_after (fetchListings B) s w) = Some msg /\ msg <> "").
Proof.
  assert (Hoff : isLoading (state_after (fetchListings B) s w) = false).
  { unfold state_after.
    destruct (list_result_cases (network B list_request)) as [Hn|[records Hr]].
    - destruct (fetchListings_failure B s w Hn) as [msg H]. now rewrite H.
    - now rewrite (fetchListings_success B s w records Hr). }
  destruct (body_not_loading _ Hoff) as [H1 H2].
  split; [exact H1|]. split; [exact H2|]. split; [|split; [|split]].
  - intros Hne. unfold body. rewrite Hoff.
    destruct (filteredListings (state_after (fetchListings B) s w));
      [contradiction | reflexivity].
  - intros records Hr. unfold state_after.
    now rewrite (fetchListings_success B s w records Hr).
  - intros Hn. unfold state_after.
    destruct (fetchListings_failure B s w Hn) as [msg H]. now rewrite H.
  - intros Hf. unfold state_after.
    destruct (fetchListings_named_failure B s w Hf) as [msg [Hne H]]. rewrite H.
    exists msg. split; [|exact Hne]. unfold banner. simpl.
    apply truthy_spec in Hne. now rewrite Hne.
Qed.

Lemma refresh_shows_result_witness :
  let down := Reference.browser Samples.frozen (Samples.always Samples.not_found)
                                Samples.yes in
  let up := Reference.browser Samples.frozen (Samples.always Samples.two_records)
                              Samples.yes in
  (list_failure (network down list_request)
   /\ body (state_after (fetchListings down) DashboardView.initial Samples.fresh)
      = NoListings
   /\ exists msg,
        banner (state_after (fetchListings down) DashboardView.initial Samples.fresh)
        = Some msg /\ msg <> "")
  /\ (filteredListings
        (state_after (fetchListings up) (searching "soup" DashboardView.initial)
           Samples.fresh) <> []
      /\ body (state_after (fetchListings up) (searching "soup" DashboardView.initial)
                 Samples.fresh)
         = Cards [decode up Samples.soup (Samples.frozen 1)]).
Proof.
  intros down up. split.
  - assert (Hf : list_failure (network down list_request))
      by (apply list_http_error; reflexivity).
    pose proof (refresh_shows_result down DashboardView.initial Samples.fresh) as H.
    split; [exact Hf|]. split.
    + rewrite (proj1 (proj2 (proj2 (proj2 (proj2 H)))) eq_refl). reflexivity.
    + exact (proj2 (proj2 (proj2 (proj2 (proj2 H)))) Hf).
  - pose proof (refresh_shows_result up (searching "soup" DashboardView.initial)
                  Samples.fresh) as H.
    assert (Hne : filteredListings
                    (state_after (fetchListings up)
                       (searching "soup" DashboardView.initial) Samples.fresh) <> [])
      by (vm_compute; discriminate).
    split; [exact Hne|].
    rewrite (proj1 (proj2 (proj2 H)) Hne). vm_compute. reflexivity.
Defined.

Lemma handleDelete_unconfirmed (B : Browser) (target : Z) (s : State) (w : World) :
  confirm B delete_prompt = true ->
  delete_confirmed (network B (delete_request target)) = false ->
  exists m,
    handleDelete B target s w
    = (Normal tt, delete_failed s m, with_request w (delete_request target)).
Proof.
  intros Hyes Hno. rewrite handleDelete_run, Hyes. simpl negb. cbv iota zeta.
  unfold delete_confirmed in Hno.
  destruct (network B (delete_request target)) as [e|status [e|env]];
    [now eexists | now eexists |].
  destruct (ok (status, @inr Exn Envelope env)); simpl in *; [|now eexists].
  rewrite Hno. now eexists.
Qed.

(** X22.  A delete that fails puts a banner on the page that starts with
    "Failed to delete listing: " and leaves the main area as it was.  A
    delete that succeeds leaves the banner as it was: an error shown
    before it is still shown after it. *)
Theorem delete_banner (B : Browser) (target : Z) (s : State) (w : World) :
  confirm B delete_prompt = true ->
  (delete_confirmed (network B (delete_request target)) = false ->
     body (state_after (handleDelete B target) s w) = body s
     /\ exists m, banner (state_after (handleDelete B target) s w)
                  = Some ("Failed to delete listing: " ++ m))
  /\ (delete_confirmed (network B (delete_request target)) = true ->
     banner (state_after (handleDelete B target) s w) = banner s).
Proof.
  intros Hyes. unfold state_after. split.
  - intros Hno. destruct (handleDelete_unconfirmed B target s w Hyes Hno) as [m H].
    rewrite H. split; [reflexivity|]. now exists m.
  - intros Hok. now rewrite (handleDelete_confirmed B target s w Hyes Hok).
Qed.

Lemma delete_banner_witness :
  let B := Reference.browser Samples.frozen (Samples.always Samples.not_found)
                             Samples.yes in
  confirm B delete_prompt = true
  /\ delete_confirmed (network B (delete_request 8)) = false
  /\ exists m,
       banner (state_after (handleDelete B 8) Samples.showing_soup Samples.fresh)
       = Some ("Failed to delete listing: " ++ m).
Proof.
  intros B. split; [reflexivity|]. split; [reflexivity|].
  exact (proj2 (proj1 (delete_banner B 8 Samples.showing_soup Samples.fresh eq_refl)
                  eq_refl)).
Defined.

End DashboardMore.
